(** * Input constructors of generation nodes

    A shallow embedding of [ax/modelbridge/generation_node_input_constructors.py]:
    the enum [NodeInputConstructors] with its dispatching [__call__], the
    four input constructors [set_target_trial], [consume_all_n],
    [repeat_arm_n], [remaining_n], and the helper [_get_default_n].

    Python integers are [Z].  Dictionaries with string keys are [gmap string _]
    and [d.get(k)] is the map lookup.  A raised exception is the [Raise]
    branch of [result].  The quotient [total_n / 10] is Python's true
    division of two [int]s, a binary64 value; it is modelled exactly, as the
    pair mantissa/exponent of the nearest double. *)

From Stdlib Require Import ZArith Lia Bool.
From stdpp Require Import gmap strings list.

Local Open Scope Z_scope.

(** ** Python values and exceptions *)

(** [ax.core.Arm]: the constructors only count arms. *)
Record Arm := { arm_name : string }.

(** [ax.core.GeneratorRun], read through [gr.arms] only. *)
Record GeneratorRun := { arms : list Arm }.

(** A parameter value of an observation ([TParamValue] without floats). *)
Inductive TParamValue :=
| ParamStr (s : string)
| ParamBool (b : bool)
| ParamInt (z : Z).

(** [ax.core.ObservationFeatures], as built by [set_target_trial]. *)
Record ObservationFeatures := {
  parameters : gmap string TParamValue;
  trial_index : option Z
}.

(** The values found under the keys this file reads ([Any] in the source):
    [None], an [int], a list of generator runs; and the observation features
    a constructor may return. *)
Inductive PyVal :=
| PyNone
| PyInt (z : Z)
| PyGrs (grs : list GeneratorRun)
| PyObs (obs : ObservationFeatures).

Inductive exn :=
| TypeError
| ZeroDivisionError
| OverflowError
| ValueError (msg : string)
| AxGenerationException (msg : string).

Inductive result (A : Type) :=
| Ok (a : A)
| Raise (e : exn).

Arguments Ok {A} a.
Arguments Raise {A} e.

(** Sequencing: the first exception raised ends the computation.  With the
    instance below, [x ← r; k] is stdpp's notation for it. *)
Definition result_bind {A B : Type} (k : A -> result B) (r : result A) : result B :=
  match r with
  | Ok a => k a
  | Raise e => Raise e
  end.

#[global] Instance result_mbind : MBind result := @result_bind.
#[global] Instance result_mret : MRet result := @Ok.

(** [v is not None] *)
Definition is_not_none (v : PyVal) : bool :=
  match v with
  | PyNone => false
  | _ => true
  end.

(** [d.get(k)]: the value under [k], [None] when the key is absent. *)
Definition dict_get (d : gmap string PyVal) (k : string) : PyVal :=
  default PyNone (d !! k).

(** [d.get(k, dflt)] *)
Definition dict_get_default (d : gmap string PyVal) (k : string) (dflt : PyVal) : PyVal :=
  default dflt (d !! k).

(** ** Binary64 quotient of two integers *)

(** A finite double, [mant * 2 ^ expo]. *)
Record binary64 := { mant : Z; expo : Z }.

(** Nearest integer to [a / b] for [0 < b], ties to the even neighbour. *)
Definition round_half_even (a b : Z) : Z :=
  let q := a / b in
  match 2 * (a mod b) ?= b with
  | Lt => q
  | Gt => q + 1
  | Eq => if Z.even q then q else q + 1
  end.

(** [floor (log2 (a / b))] for [0 < a] and [0 < b]. *)
Definition quotient_exponent (a b : Z) : Z :=
  let d := Z.log2 a - Z.log2 b in
  let fits := if 0 <=? d then b * 2 ^ d <=? a else b <=? a * 2 ^ (- d) in
  if fits then d else d - 1.

(** The double nearest to [a / b] for [0 < a] and [0 < b]: 53 significant
    bits, exponent of the last bit at least -1074; [None] when the rounded
    quotient reaches [2 ^ 1024]. *)
Definition nearest_double (a b : Z) : option binary64 :=
  let q := Z.max (quotient_exponent a b - 52) (-1074) in
  let m := if 0 <=? q then round_half_even a (b * 2 ^ q)
           else round_half_even (a * 2 ^ (- q)) b in
  if (0 <=? q) && (2 ^ 1024 <=? m * 2 ^ q) then None
  else Some {| mant := m; expo := q |}.

(** [a / b] on two Python [int]s. *)
Definition int_truediv (a b : Z) : result binary64 :=
  if b =? 0 then Raise ZeroDivisionError
  else if a =? 0 then Ok {| mant := 0; expo := 0 |}
  else match nearest_double (Z.abs a) (Z.abs b) with
       | Some x => Ok {| mant := Z.sgn a * Z.sgn b * mant x; expo := expo x |}
       | None => Raise OverflowError
       end.

(** [math.ceil] of a finite double. *)
Definition ceil (x : binary64) : Z :=
  if 0 <=? expo x then mant x * 2 ^ expo x
  else - ((- mant x) / 2 ^ (- expo x)).

(** ** Operators on values *)

(** [v < k] with [k] an [int] literal *)
Definition py_lt (v : PyVal) (k : Z) : result bool :=
  match v with
  | PyInt z => Ok (z <? k)
  | _ => Raise TypeError
  end.

(** [v <= k] with [k] an [int] literal *)
Definition py_le (v : PyVal) (k : Z) : result bool :=
  match v with
  | PyInt z => Ok (z <=? k)
  | _ => Raise TypeError
  end.

(** [v / k] with [k] an [int] literal *)
Definition py_truediv (v : PyVal) (k : Z) : result binary64 :=
  match v with
  | PyInt z => int_truediv z k
  | _ => Raise TypeError
  end.

(** [v - k] with [k] an [int] *)
Definition py_sub (v : PyVal) (k : Z) : result Z :=
  match v with
  | PyInt z => Ok (z - k)
  | _ => Raise TypeError
  end.

(** [sum(len(gr.arms) for gr in v)] *)
Definition sum_arms (v : PyVal) : result Z :=
  match v with
  | PyGrs grs => Ok (fold_left (fun acc gr => acc + Z.of_nat (length (arms gr))) grs 0)
  | _ => Raise TypeError
  end.

(** ** The collaborators *)

(** [GenerationStrategy], read through its constant [DEFAULT_N]. *)
Record GenerationStrategy := { DEFAULT_N : Z }.

(** [GenerationNode], read through [next_node.generation_strategy]. *)
Record GenerationNode := {
  node_name : string;
  generation_strategy : GenerationStrategy
}.

(** The members of the enum and their values. *)
Inductive NodeInputConstructors :=
| ALL_N
| REPEAT_N
| REMAINING_N
| TARGET_TRIAL_FIXED_FEATURES.

Definition value (self : NodeInputConstructors) : string :=
  match self with
  | ALL_N => "consume_all_n"
  | REPEAT_N => "repeat_arm_n"
  | REMAINING_N => "remaining_n"
  | TARGET_TRIAL_FIXED_FEATURES => "set_target_trial"
  end.

Module InputConstructorPurpose.
Inductive t := N | FIXED_FEATURES.

Definition value (self : t) : string :=
  match self with
  | N => "n"
  | FIXED_FEATURES => "fixed_features"
  end.
End InputConstructorPurpose.

(** The names the module text binds beside the four input constructors:
    its imports, its two classes and its helper. *)
Definition other_module_names : list string :=
  [ "sys"; "Enum"; "unique"; "ceil"; "Any"; "ObservationFeatures";
    "STATUSES_EXPECTING_DATA"; "Experiment"; "get_target_trial_index";
    "AxGenerationException"; "GenerationNode"; "Keys";
    "NodeInputConstructors"; "InputConstructorPurpose"; "_get_default_n" ].

Section InputConstructors.

(** What the module imports from the rest of the library. *)

(** [ax.core.base_trial.BaseTrial] *)
Context {BaseTrial : Type}.

(** [ax.core.experiment.Experiment], read through [_properties] and
    [trials]. *)
Record Experiment := {
  _properties : gmap string PyVal;
  trials : gmap Z BaseTrial
}.

(** [Keys.EXPERIMENT_TOTAL_CONCURRENT_ARMS.value] *)
Variable EXPERIMENT_TOTAL_CONCURRENT_ARMS : string.

(** [ax.core.utils.get_target_trial_index] *)
Variable get_target_trial_index : Experiment -> option Z.

(** What the f-strings print for [next_node], [STATUSES_EXPECTING_DATA]
    and [experiment.trials]. *)
Variable GenerationNode_str : GenerationNode -> string.
Variable STATUSES_EXPECTING_DATA_str : string.
Variable trials_str : gmap Z BaseTrial -> string.

(** The attributes the interpreter gives every module object
    ([__name__], [__doc__], [__class__], ...). *)
Variable interpreter_attr : string -> bool.

(** *** Helper *)

Definition _get_default_n (experiment : Experiment) (next_node : GenerationNode) : PyVal :=
  let total_concurrent_arms :=
    dict_get (_properties experiment) EXPERIMENT_TOTAL_CONCURRENT_ARMS in
  if is_not_none total_concurrent_arms then total_concurrent_arms
  else PyInt (DEFAULT_N (generation_strategy next_node) * 10).

(** *** The four input constructors *)

Definition set_target_trial
    (previous_node : option GenerationNode) (next_node : GenerationNode)
    (gs_gen_call_kwargs : gmap string PyVal) (experiment : Experiment)
  : result PyVal :=
  let target_trial_idx := get_target_trial_index experiment in
  match target_trial_idx with
  | None =>
      Raise (AxGenerationException
        ("Attempting to construct for input into "
         +:+ GenerationNode_str next_node
         +:+ " but no trials match the expected conditions. Often this could be due to no trials on the experiment that are in status "
         +:+ STATUSES_EXPECTING_DATA_str
         +:+ " on the experiment. The trials on this experiment are: "
         +:+ trials_str (trials experiment)
         +:+ "."))
  | Some idx =>
      Ok (PyObs {| parameters := ∅; trial_index := Some idx |})
  end.

Definition consume_all_n
    (previous_node : option GenerationNode) (next_node : GenerationNode)
    (gs_gen_call_kwargs : gmap string PyVal) (experiment : Experiment)
  : result PyVal :=
  Ok (if is_not_none (dict_get gs_gen_call_kwargs "n")
      then dict_get gs_gen_call_kwargs "n"
      else _get_default_n experiment next_node).

Definition repeat_arm_n
    (previous_node : option GenerationNode) (next_node : GenerationNode)
    (gs_gen_call_kwargs : gmap string PyVal) (experiment : Experiment)
  : result PyVal :=
  let total_n :=
    if is_not_none (dict_get gs_gen_call_kwargs "n")
    then dict_get gs_gen_call_kwargs "n"
    else _get_default_n experiment next_node in
  small ← py_lt total_n 6;
  if small : bool then Ok (PyInt 0)
  else
    medium ← py_le total_n 10;
    if medium : bool then Ok (PyInt 1)
    else
      tenth ← py_truediv total_n 10;
      Ok (PyInt (ceil tenth)).

Definition remaining_n
    (previous_node : option GenerationNode) (next_node : GenerationNode)
    (gs_gen_call_kwargs : gmap string PyVal) (experiment : Experiment)
  : result PyVal :=
  let grs_this_gen := dict_get_default gs_gen_call_kwargs "grs_this_gen" (PyGrs []) in
  let total_n :=
    if is_not_none (dict_get gs_gen_call_kwargs "n")
    then dict_get gs_gen_call_kwargs "n"
    else _get_default_n experiment next_node in
  allocated ← sum_arms grs_this_gen;
  left ← py_sub total_n allocated;
  Ok (PyInt (Z.max left 0)).

(** *** Dispatch *)

(** An attribute of the module: one of the input constructors, or
    something else, which does not take the four keyword arguments. *)
Inductive module_attr :=
| InputConstructor
    (method : option GenerationNode -> GenerationNode ->
              gmap string PyVal -> Experiment -> result PyVal)
| OtherAttr.

(** [getattr(sys.modules[__name__], name)]; [None] is [AttributeError]. *)
Definition module_getattr (name : string) : option module_attr :=
  if (name =? "set_target_trial")%string then Some (InputConstructor set_target_trial)
  else if (name =? "consume_all_n")%string then Some (InputConstructor consume_all_n)
  else if (name =? "repeat_arm_n")%string then Some (InputConstructor repeat_arm_n)
  else if (name =? "remaining_n")%string then Some (InputConstructor remaining_n)
  else if bool_decide (name ∈ other_module_names) || interpreter_attr name
       then Some OtherAttr
  else None.

(** The body of [__call__], on the value of the member. *)
Definition call_value (self_value : string)
    (previous_node : option GenerationNode) (next_node : GenerationNode)
    (gs_gen_call_kwargs : gmap string PyVal) (experiment : Experiment)
  : result PyVal :=
  match module_getattr self_value with
  | None =>
      Raise (ValueError
        (self_value
         +:+ " is not defined as a method in ``generation_node_input_constructors.py``. Please add the method to the file."))
  | Some (InputConstructor method) =>
      method previous_node next_node gs_gen_call_kwargs experiment
  | Some OtherAttr => Raise TypeError
  end.

Definition NodeInputConstructors_call (self : NodeInputConstructors) :=
  call_value (value self).

(** The expression bound to [total_n] in [repeat_arm_n] and [remaining_n],
    which [consume_all_n] returns. *)
Definition total_n_of (next_node : GenerationNode)
    (gs_gen_call_kwargs : gmap string PyVal) (experiment : Experiment) : PyVal :=
  if is_not_none (dict_get gs_gen_call_kwargs "n")
  then dict_get gs_gen_call_kwargs "n"
  else _get_default_n experiment next_node.

(** The ladder of [repeat_arm_n] on an [int]. *)
Definition repeat_ladder (total_n : Z) : result PyVal :=
  if total_n <? 6 then Ok (PyInt 0)
  else if total_n <=? 10 then Ok (PyInt 1)
  else tenth ← int_truediv total_n 10; Ok (PyInt (ceil tenth)).

(** ** The words of the specification *)

(** The ceiling of the exact quotient [a / b], for [0 < b]. *)
Definition ceil_quotient (a b : Z) : Z := - ((- a) / b).

(** The resolved total count [T] of a call: the value under the key "n"
    when it is present and not [None], otherwise the output of
    [_get_default_n]. *)
Inductive resolved_total (next_node : GenerationNode)
    (gs_gen_call_kwargs : gmap string PyVal) (experiment : Experiment)
  : PyVal -> Prop :=
| total_explicit (v : PyVal) :
    gs_gen_call_kwargs !! "n" = Some v -> v <> PyNone ->
    resolved_total next_node gs_gen_call_kwargs experiment v
| total_default :
    gs_gen_call_kwargs !! "n" = None \/ gs_gen_call_kwargs !! "n" = Some PyNone ->
    resolved_total next_node gs_gen_call_kwargs experiment
      (_get_default_n experiment next_node).

(** The generation results of this round: the list under the key
    "grs_this_gen", the empty sequence when the key is absent. *)
Inductive results_this_gen (gs_gen_call_kwargs : gmap string PyVal)
  : list GeneratorRun -> Prop :=
| results_present (grs : list GeneratorRun) :
    gs_gen_call_kwargs !! "grs_this_gen" = Some (PyGrs grs) ->
    results_this_gen gs_gen_call_kwargs grs
| results_absent :
    gs_gen_call_kwargs !! "grs_this_gen" = None ->
    results_this_gen gs_gen_call_kwargs [].

(** The arms already allocated: the sum of the arm counts of the results. *)
Fixpoint allocated (grs : list GeneratorRun) : Z :=
  match grs with
  | [] => 0
  | gr :: rest => Z.of_nat (length (arms gr)) + allocated rest
  end.

(** What a well-typed call holds under "n", and a well-typed experiment
    under the property: nothing, [None] or an [int]. *)
Inductive int_or_none : option PyVal -> Prop :=
| int_or_none_absent : int_or_none None
| int_or_none_none : int_or_none (Some PyNone)
| int_or_none_int (z : Z) : int_or_none (Some (PyInt z)).

(** The purpose the specification gives each identifier. *)
Definition purpose_of (self : NodeInputConstructors) : InputConstructorPurpose.t :=
  match self with
  | TARGET_TRIAL_FIXED_FEATURES => InputConstructorPurpose.FIXED_FEATURES
  | _ => InputConstructorPurpose.N
  end.

(** The type of result a purpose announces. *)
Definition has_purpose_type (purpose : InputConstructorPurpose.t) (v : PyVal) : Prop :=
  match purpose with
  | InputConstructorPurpose.N => exists c, v = PyInt c
  | InputConstructorPurpose.FIXED_FEATURES => exists obs, v = PyObs obs
  end.

(** The same-named function of each identifier. *)
Definition constructor_of (self : NodeInputConstructors) :=
  match self with
  | ALL_N => consume_all_n
  | REPEAT_N => repeat_arm_n
  | REMAINING_N => remaining_n
  | TARGET_TRIAL_FIXED_FEATURES => set_target_trial
  end.

(** ** Rounding to the nearest integer *)

Lemma round_half_even_bounds (a b : Z) :
  0 < b ->
  2 * a - b <= 2 * b * round_half_even a b <= 2 * a + b.
Proof.
  intros Hb. unfold round_half_even.
  pose proof (Z.div_mod a b ltac:(lia)) as Hdm.
  pose proof (Z.mod_pos_bound a b Hb) as Hr.
  destruct (Z.compare_spec (2 * (a mod b)) b) as [He | Hl | Hg].
  - destruct (Z.even (a / b)); nia.
  - nia.
  - nia.
Qed.

Lemma round_half_even_exact (k b : Z) :
  0 < b -> round_half_even (k * b) b = k.
Proof.
  intros Hb. unfold round_half_even.
  rewrite Z.div_mul by lia. rewrite Z.mod_mul by lia.
  destruct (Z.compare_spec (2 * 0) b); lia.
Qed.

Lemma round_half_even_mono (a a' b : Z) :
  0 < b -> a <= a' -> round_half_even a b <= round_half_even a' b.
Proof.
  intros Hb Hle.
  pose proof (Z.div_le_mono a a' b Hb Hle) as Hq.
  pose proof (Z.div_mod a b ltac:(lia)) as Hdm.
  pose proof (Z.div_mod a' b ltac:(lia)) as Hdm'.
  pose proof (Z.mod_pos_bound a b Hb) as Hr.
  pose proof (Z.mod_pos_bound a' b Hb) as Hr'.
  unfold round_half_even.
  destruct (Z.eq_dec (a / b) (a' / b)) as [Heq | Hne].
  - rewrite <- Heq in *.
    assert (a mod b <= a' mod b) by nia.
    destruct (Z.compare_spec (2 * (a mod b)) b),
             (Z.compare_spec (2 * (a' mod b)) b),
             (Z.even (a / b)); lia.
  - destruct (Z.compare_spec (2 * (a mod b)) b),
             (Z.compare_spec (2 * (a' mod b)) b),
             (Z.even (a / b)), (Z.even (a' / b)); lia.
Qed.

(** ** The exponent of a quotient *)

Lemma quotient_exponent_spec (a b : Z) :
  0 < b -> b <= a ->
  0 <= quotient_exponent a b /\
  b * 2 ^ quotient_exponent a b <= a < b * 2 ^ (quotient_exponent a b + 1).
Proof.
  intros Hb Hab. unfold quotient_exponent.
  pose proof (Z.log2_spec a ltac:(lia)) as Ha.
  pose proof (Z.log2_spec b Hb) as Hlb.
  pose proof (Z.log2_le_mono b a Hab) as Hmono.
  pose proof (Z.log2_nonneg b) as Hnb.
  set (la := Z.log2 a) in *. set (lb := Z.log2 b) in *.
  assert (Hd : 0 <= la - lb) by lia.
  destruct (Z.leb_spec 0 (la - lb)) as [_ | ?]; [| lia].
  assert (Hsplit : 2 ^ la = 2 ^ lb * 2 ^ (la - lb)).
  { rewrite <- Z.pow_add_r by lia. f_equal. lia. }
  assert (Hs1 : 2 ^ (la + 1) = 2 * 2 ^ la) by (rewrite Z.pow_add_r by lia; lia).
  assert (Hs2 : 2 ^ (lb + 1) = 2 * 2 ^ lb) by (rewrite Z.pow_add_r by lia; lia).
  assert (Hs3 : 2 ^ (la - lb + 1) = 2 * 2 ^ (la - lb)) by (rewrite Z.pow_add_r by lia; lia).
  assert (Hp : 0 < 2 ^ (la - lb)) by (apply Z.pow_pos_nonneg; lia).
  assert (Hplb : 0 < 2 ^ lb) by (apply Z.pow_pos_nonneg; lia).
  destruct (Z.leb_spec (b * 2 ^ (la - lb)) a) as [Hfit | Hnofit].
  - split; [lia |]. split; [lia |]. rewrite Hs3. nia.
  - assert (Hd1 : 1 <= la - lb).
    { destruct (Z.eq_dec (la - lb) 0) as [E | ]; [| lia].
      rewrite E in Hnofit. simpl in Hnofit. lia. }
    assert (Hs4 : 2 ^ (la - lb) = 2 * 2 ^ (la - lb - 1)).
    { replace (la - lb) with ((la - lb - 1) + 1) at 1 by lia.
      rewrite Z.pow_add_r by lia. lia. }
    replace (la - lb - 1 + 1) with (la - lb) by lia.
    split; [lia |]. split; [| lia]. nia.
Qed.

Lemma quotient_exponent_mono (a a' b : Z) :
  0 < b -> b <= a -> a <= a' ->
  quotient_exponent a b <= quotient_exponent a' b.
Proof.
  intros Hb Hba Haa'.
  destruct (quotient_exponent_spec a b Hb Hba) as (He & Hlo & _).
  destruct (quotient_exponent_spec a' b Hb ltac:(lia)) as (He' & _ & Hhi).
  destruct (Z.le_gt_cases (quotient_exponent a b) (quotient_exponent a' b)) as [|Hgt]; [assumption |].
  exfalso.
  assert (2 ^ (quotient_exponent a' b + 1) <= 2 ^ quotient_exponent a b)
    by (apply Z.pow_le_mono_r; lia).
  nia.
Qed.

(** ** The nearest double of a quotient at least one *)

Lemma nearest_double_below_53_bits (a b : Z) :
  0 < b -> b <= a -> quotient_exponent a b < 52 ->
  nearest_double a b =
  Some {| mant := round_half_even (a * 2 ^ (52 - quotient_exponent a b)) b;
          expo := quotient_exponent a b - 52 |}.
Proof.
  intros Hb Hab He.
  destruct (quotient_exponent_spec a b Hb Hab) as (He0 & _).
  unfold nearest_double.
  rewrite Z.max_l by lia.
  destruct (Z.leb_spec 0 (quotient_exponent a b - 52)); [lia |].
  rewrite andb_false_l.
  replace (- (quotient_exponent a b - 52)) with (52 - quotient_exponent a b) by lia.
  reflexivity.
Qed.

Lemma nearest_double_from_53_bits (a b : Z) :
  0 < b -> b <= a -> 52 <= quotient_exponent a b ->
  nearest_double a b =
  let q := quotient_exponent a b - 52 in
  let m := round_half_even a (b * 2 ^ q) in
  if 2 ^ 1024 <=? m * 2 ^ q then None else Some {| mant := m; expo := q |}.
Proof.
  intros Hb Hab He.
  unfold nearest_double.
  rewrite Z.max_l by lia.
  destruct (Z.leb_spec 0 (quotient_exponent a b - 52)); [| lia].
  reflexivity.
Qed.

Lemma mantissa_53_bits (a b e : Z) :
  0 < b -> 52 <= e -> b * 2 ^ e <= a < b * 2 ^ (e + 1) ->
  2 ^ 52 <= round_half_even a (b * 2 ^ (e - 52)) <= 2 ^ 53.
Proof.
  intros Hb He [Hlo Hhi].
  assert (H53 : 2 ^ 53 = 2 * 2 ^ 52) by reflexivity.
  assert (He1 : 2 ^ (e + 1) = 2 * 2 ^ e) by (rewrite Z.pow_add_r by lia; lia).
  assert (Hk : 2 ^ 52 * 2 ^ (e - 52) = 2 ^ e).
  { rewrite <- Z.pow_add_r by lia. f_equal. lia. }
  assert (Hkp : 0 < 2 ^ (e - 52)) by (apply Z.pow_pos_nonneg; lia).
  assert (HB : 0 < b * 2 ^ (e - 52)) by nia.
  split.
  - rewrite <- (round_half_even_exact (2 ^ 52) (b * 2 ^ (e - 52)) HB).
    apply round_half_even_mono; [assumption |]. nia.
  - rewrite <- (round_half_even_exact (2 ^ 53) (b * 2 ^ (e - 52)) HB).
    apply round_half_even_mono; [assumption |]. nia.
Qed.

Lemma nearest_double_spec (a b : Z) (x : binary64) :
  0 < b -> b <= a -> nearest_double a b = Some x ->
  expo x = quotient_exponent a b - 52 /\ 2 ^ 52 <= mant x <= 2 ^ 53.
Proof.
  intros Hb Hab Hx.
  destruct (quotient_exponent_spec a b Hb Hab) as (He0 & Hlo & Hhi).
  set (e := quotient_exponent a b) in *.
  assert (H53 : 2 ^ 53 = 2 * 2 ^ 52) by reflexivity.
  assert (He1 : 2 ^ (e + 1) = 2 * 2 ^ e) by (rewrite Z.pow_add_r by lia; lia).
  destruct (Z.lt_ge_cases e 52) as [Hs | Hl].
  - rewrite nearest_double_below_53_bits in Hx by assumption.
    fold e in Hx. injection Hx as <-. simpl. split; [reflexivity |].
    assert (Hk : 2 ^ e * 2 ^ (52 - e) = 2 ^ 52).
    { rewrite <- Z.pow_add_r by lia. f_equal. lia. }
    assert (Hkp : 0 < 2 ^ (52 - e)) by (apply Z.pow_pos_nonneg; lia).
    split.
    + rewrite <- (round_half_even_exact (2 ^ 52) b Hb).
      apply round_half_even_mono; [assumption |]. nia.
    + rewrite <- (round_half_even_exact (2 ^ 53) b Hb).
      apply round_half_even_mono; [assumption |]. nia.
  - rewrite nearest_double_from_53_bits in Hx by (assumption || lia).
    fold e in Hx. cbv zeta in Hx.
    destruct (2 ^ 1024 <=? _) in Hx; [discriminate |].
    injection Hx as <-. simpl. split; [reflexivity |].
    apply mantissa_53_bits; auto.
Qed.

(** The double is within half a unit in the last place of the quotient. *)
Lemma nearest_double_half_ulp (a b : Z) (x : binary64) :
  0 < b -> b <= a -> nearest_double a b = Some x ->
  if 0 <=? expo x
  then Z.abs (2 * (mant x * 2 ^ expo x * b - a)) <= 2 ^ expo x * b
  else Z.abs (2 * (mant x * b - a * 2 ^ (- expo x))) <= b.
Proof.
  intros Hb Hab Hx.
  destruct (quotient_exponent_spec a b Hb Hab) as (He0 & _).
  destruct (Z.lt_ge_cases (quotient_exponent a b) 52) as [Hs | Hl].
  - rewrite nearest_double_below_53_bits in Hx by assumption.
    injection Hx as <-. cbn [expo mant].
    destruct (Z.leb_spec 0 (quotient_exponent a b - 52)); [lia |].
    replace (- (quotient_exponent a b - 52)) with (52 - quotient_exponent a b) by lia.
    pose proof (round_half_even_bounds
                  (a * 2 ^ (52 - quotient_exponent a b)) b Hb).
    lia.
  - rewrite nearest_double_from_53_bits in Hx by (assumption || lia).
    cbv zeta in Hx.
    destruct (2 ^ 1024 <=? _) in Hx; [discriminate |].
    injection Hx as <-. cbn [expo mant].
    destruct (Z.leb_spec 0 (quotient_exponent a b - 52)); [| lia].
    assert (Hkp : 0 < 2 ^ (quotient_exponent a b - 52))
      by (apply Z.pow_pos_nonneg; lia).
    pose proof (round_half_even_bounds a
                  (b * 2 ^ (quotient_exponent a b - 52)) ltac:(nia)).
    nia.
Qed.

Lemma nearest_double_mono_mant (a a' b : Z) (x x' : binary64) :
  0 < b -> b <= a -> a <= a' ->
  quotient_exponent a b = quotient_exponent a' b ->
  nearest_double a b = Some x -> nearest_double a' b = Some x' ->
  mant x <= mant x'.
Proof.
  intros Hb Hab Haa' Hee Hx Hx'.
  destruct (quotient_exponent_spec a b Hb Hab) as (He0 & _).
  destruct (Z.lt_ge_cases (quotient_exponent a b) 52) as [Hs | Hl].
  - rewrite nearest_double_below_53_bits in Hx by assumption.
    rewrite nearest_double_below_53_bits in Hx' by lia.
    injection Hx as <-. injection Hx' as <-. simpl. rewrite <- Hee.
    apply round_half_even_mono; [assumption |].
    assert (0 < 2 ^ (52 - quotient_exponent a b)) by (apply Z.pow_pos_nonneg; lia).
    nia.
  - rewrite nearest_double_from_53_bits in Hx by (assumption || lia).
    rewrite nearest_double_from_53_bits in Hx' by lia.
    rewrite <- Hee in Hx'. cbv zeta in Hx, Hx'.
    destruct (2 ^ 1024 <=? _) in Hx; [discriminate |].
    destruct (2 ^ 1024 <=? _) in Hx'; [discriminate |].
    injection Hx as <-. injection Hx' as <-. simpl.
    apply round_half_even_mono; [| assumption].
    assert (0 < 2 ^ (quotient_exponent a b - 52)) by (apply Z.pow_pos_nonneg; lia).
    nia.
Qed.

(** ** Ceiling of a double at least one *)

Lemma ceil_bounds (x : binary64) (e : Z) :
  0 <= e -> expo x = e - 52 -> 2 ^ 52 <= mant x <= 2 ^ 53 ->
  2 ^ e <= ceil x <= 2 ^ (e + 1).
Proof.
  intros He Hq [Hlo Hhi]. unfold ceil. rewrite Hq.
  assert (H53 : 2 ^ 53 = 2 * 2 ^ 52) by reflexivity.
  assert (He1 : 2 ^ (e + 1) = 2 * 2 ^ e) by (rewrite Z.pow_add_r by lia; lia).
  destruct (Z.leb_spec 0 (e - 52)) as [Hl | Hs].
  - assert (Hk : 2 ^ 52 * 2 ^ (e - 52) = 2 ^ e).
    { rewrite <- Z.pow_add_r by lia. f_equal. lia. }
    assert (Hkp : 0 < 2 ^ (e - 52)) by (apply Z.pow_pos_nonneg; lia).
    nia.
  - replace (- (e - 52)) with (52 - e) by lia.
    assert (Hk : 2 ^ e * 2 ^ (52 - e) = 2 ^ 52).
    { rewrite <- Z.pow_add_r by lia. f_equal. lia. }
    assert (Hkp : 0 < 2 ^ (52 - e)) by (apply Z.pow_pos_nonneg; lia).
    assert (Hep : 0 < 2 ^ e) by (apply Z.pow_pos_nonneg; lia).
    split.
    + assert (- mant x / 2 ^ (52 - e) <= - 2 ^ e); [| lia].
      rewrite <- (Z.div_mul (- 2 ^ e) (2 ^ (52 - e))) by lia.
      apply Z.div_le_mono; [assumption | nia].
    + assert (- (2 * 2 ^ e) <= - mant x / 2 ^ (52 - e)); [| lia].
      rewrite <- (Z.div_mul (- (2 * 2 ^ e)) (2 ^ (52 - e))) by lia.
      apply Z.div_le_mono; [assumption | nia].
Qed.

Lemma ceil_mono_mant (x x' : binary64) :
  expo x = expo x' -> mant x <= mant x' -> ceil x <= ceil x'.
Proof.
  intros Hq Hm. unfold ceil. rewrite <- Hq.
  destruct (Z.leb_spec 0 (expo x)) as [Hl | Hs].
  - assert (0 < 2 ^ expo x) by (apply Z.pow_pos_nonneg; lia). nia.
  - assert (0 < 2 ^ (- expo x)) by (apply Z.pow_pos_nonneg; lia).
    assert (- mant x' / 2 ^ (- expo x) <= - mant x / 2 ^ (- expo x)); [| lia].
    apply Z.div_le_mono; lia.
Qed.

(** ** True division of positive integers *)

Lemma int_truediv_pos (a b : Z) :
  0 < a -> 0 < b ->
  int_truediv a b =
  match nearest_double a b with
  | Some x => Ok x
  | None => Raise OverflowError
  end.
Proof.
  intros Ha Hb. unfold int_truediv.
  destruct (Z.eqb_spec b 0); [lia |].
  destruct (Z.eqb_spec a 0); [lia |].
  rewrite (Z.abs_eq a), (Z.abs_eq b) by lia.
  rewrite (Z.sgn_pos a), (Z.sgn_pos b) by lia.
  destruct (nearest_double a b) as [[m q] |]; [| reflexivity].
  simpl. do 2 f_equal. destruct m; reflexivity.
Qed.

Lemma repeat_ladder_large (total_n : Z) :
  10 < total_n ->
  repeat_ladder total_n =
  match nearest_double total_n 10 with
  | Some x => Ok (PyInt (ceil x))
  | None => Raise OverflowError
  end.
Proof.
  intros H. unfold repeat_ladder.
  destruct (Z.ltb_spec total_n 6); [lia |].
  destruct (Z.leb_spec total_n 10); [lia |].
  rewrite int_truediv_pos by lia.
  destruct (nearest_double total_n 10); reflexivity.
Qed.

(** ** Where the quotient by ten overflows *)

Lemma nearest_double_10_defined (total_n : Z) :
  10 <= total_n -> total_n < 10 * (2 ^ 1024 - 2 ^ 970) ->
  exists x, nearest_double total_n 10 = Some x.
Proof.
  intros Hlo Hhi.
  destruct (quotient_exponent_spec total_n 10 ltac:(lia) Hlo) as (He0 & Hel & Heh).
  set (e := quotient_exponent total_n 10) in *.
  destruct (Z.lt_ge_cases e 52) as [Hs | Hl].
  { rewrite nearest_double_below_53_bits by (lia || assumption). eauto. }
  rewrite nearest_double_from_53_bits by (lia || assumption).
  fold e. cbv zeta.
  pose proof (mantissa_53_bits total_n 10 e ltac:(lia) Hl (conj Hel Heh)) as [_ Hm].
  set (m := round_half_even total_n (10 * 2 ^ (e - 52))) in *.
  assert (Hk : 2 ^ 53 * 2 ^ (e - 52) = 2 ^ (e + 1)).
  { rewrite <- Z.pow_add_r by lia. f_equal. lia. }
  assert (Hkp : 0 < 2 ^ (e - 52)) by (apply Z.pow_pos_nonneg; lia).
  assert (Hfin : m * 2 ^ (e - 52) < 2 ^ 1024); [| destruct (Z.leb_spec (2 ^ 1024) (m * 2 ^ (e - 52))); [lia | eauto]].
  assert (H1024 : 2 ^ 1024 = 2 ^ 54 * 2 ^ 970) by reflexivity.
  assert (HP : 0 < 2 ^ 970) by reflexivity.
  destruct (Z.le_gt_cases e 1022) as [Hmid | Htop].
  - assert (2 ^ (e + 1) <= 2 ^ 1023) by (apply Z.pow_le_mono_r; lia).
    assert (2 ^ 1023 < 2 ^ 1024) by reflexivity.
    nia.
  - assert (He : e = 1023).
    { destruct (Z.le_gt_cases e 1023) as [| Hbig]; [lia |]. exfalso.
      assert (2 ^ 1024 <= 2 ^ e) by (apply Z.pow_le_mono_r; lia).
      assert (0 < 2 ^ 970) by reflexivity. lia. }
    subst m. rewrite He in *. clear He.
    replace (1023 - 52) with 971 in * by lia.
    pose proof (round_half_even_bounds total_n (10 * 2 ^ 971) ltac:(reflexivity)) as [_ Hb].
    set (m := round_half_even total_n (10 * 2 ^ 971)) in *.
    assert (H971 : 2 ^ 971 = 2 * 2 ^ 970) by reflexivity.
    rewrite H1024 in *. rewrite H971 in *.
    set (P := 2 ^ 970) in *.
    assert (Hlt : m < 2 ^ 53).
    { destruct (Z.lt_ge_cases m (2 ^ 53)) as [| Hge]; [assumption |]. exfalso.
      assert (2 ^ 53 * P <= m * P) by (apply Z.mul_le_mono_nonneg_r; lia).
      change (2 ^ 54) with (2 * 2 ^ 53) in Hhi. lia. }
    change (2 ^ 54) with (2 * 2 ^ 53).
    assert (m * P <= (2 ^ 53 - 1) * P) by (apply Z.mul_le_mono_nonneg_r; lia).
    lia.
Qed.

Lemma nearest_double_10_overflow (total_n : Z) :
  10 * (2 ^ 1024 - 2 ^ 970) <= total_n ->
  nearest_double total_n 10 = None.
Proof.
  intros Hhi.
  assert (HP : 0 < 2 ^ 970) by reflexivity.
  assert (H1024 : 2 ^ 1024 = 2 ^ 54 * 2 ^ 970) by reflexivity.
  assert (H1023 : 2 ^ 1023 = 2 ^ 53 * 2 ^ 970) by reflexivity.
  assert (Hlo : 10 <= total_n).
  { assert (1 <= 2 ^ 1024 - 2 ^ 970) by (vm_compute; discriminate). lia. }
  destruct (quotient_exponent_spec total_n 10 ltac:(lia) Hlo) as (He0 & Hel & Heh).
  set (e := quotient_exponent total_n 10) in *.
  assert (He : 1023 <= e).
  { destruct (Z.le_gt_cases 1023 e) as [| Hsmall]; [assumption |]. exfalso.
    assert (2 ^ (e + 1) <= 2 ^ 1023) by (apply Z.pow_le_mono_r; lia).
    rewrite H1024, H1023 in *. change (2 ^ 54) with (2 * 2 ^ 53) in Hhi.
    set (P := 2 ^ 970) in *. lia. }
  rewrite nearest_double_from_53_bits by (lia || assumption).
  fold e. cbv zeta.
  pose proof (mantissa_53_bits total_n 10 e ltac:(lia) ltac:(lia) (conj Hel Heh)) as [Hm _].
  assert (Hkp : 0 < 2 ^ (e - 52)) by (apply Z.pow_pos_nonneg; lia).
  assert (Hinf : 2 ^ 1024 <= round_half_even total_n (10 * 2 ^ (e - 52)) * 2 ^ (e - 52));
    [| destruct (Z.leb_spec (2 ^ 1024) (round_half_even total_n (10 * 2 ^ (e - 52)) * 2 ^ (e - 52)));
       [reflexivity | lia]].
  destruct (Z.eq_dec e 1023) as [E | NE].
  - rewrite E. replace (1023 - 52) with 971 by lia.
    assert (Hthr : round_half_even (10 * (2 ^ 1024 - 2 ^ 970)) (10 * 2 ^ 971) = 2 ^ 53)
      by (vm_compute; reflexivity).
    pose proof (round_half_even_mono _ _ (10 * 2 ^ 971) ltac:(reflexivity) Hhi) as Hmono.
    rewrite Hthr in Hmono.
    change (2 ^ 1024) with (2 ^ 53 * 2 ^ 971).
    apply Z.mul_le_mono_nonneg_r; [| assumption]. vm_compute; discriminate.
  - assert (Hk : 2 ^ 52 * 2 ^ (e - 52) = 2 ^ e).
    { rewrite <- Z.pow_add_r by lia. f_equal. lia. }
    assert (2 ^ 1024 <= 2 ^ e) by (apply Z.pow_le_mono_r; lia).
    nia.
Qed.

(** ** The ladder of [repeat_arm_n] *)

Lemma repeat_ladder_returns (total_n : Z) :
  total_n < 10 * (2 ^ 1024 - 2 ^ 970) ->
  exists c, repeat_ladder total_n = Ok (PyInt c).
Proof.
  intros Hhi.
  destruct (Z.le_gt_cases total_n 10) as [Hsmall | Hbig].
  - unfold repeat_ladder.
    destruct (total_n <? 6); [eauto |].
    destruct (Z.leb_spec total_n 10); [eauto | lia].
  - rewrite repeat_ladder_large by assumption.
    destruct (nearest_double_10_defined total_n ltac:(lia) Hhi) as [x ->]. eauto.
Qed.

Lemma repeat_ladder_overflow (total_n : Z) :
  10 * (2 ^ 1024 - 2 ^ 970) <= total_n ->
  repeat_ladder total_n = Raise OverflowError.
Proof.
  intros Hhi.
  assert (10 < 10 * (2 ^ 1024 - 2 ^ 970)) by reflexivity.
  rewrite repeat_ladder_large by lia.
  now rewrite nearest_double_10_overflow.
Qed.

Lemma repeat_ladder_small (total_n c : Z) :
  total_n <= 10 -> repeat_ladder total_n = Ok (PyInt c) ->
  (total_n < 6 /\ c = 0) \/ (6 <= total_n /\ c = 1).
Proof.
  intros Hsmall. unfold repeat_ladder.
  destruct (Z.ltb_spec total_n 6).
  - intros [= <-]. left. lia.
  - destruct (Z.leb_spec total_n 10); [| lia].
    intros [= <-]. right. lia.
Qed.

Lemma repeat_ladder_large_inv (total_n c : Z) :
  10 < total_n -> repeat_ladder total_n = Ok (PyInt c) ->
  exists x, nearest_double total_n 10 = Some x /\ c = ceil x /\
            expo x = quotient_exponent total_n 10 - 52 /\
            2 ^ 52 <= mant x <= 2 ^ 53.
Proof.
  intros Hbig. rewrite repeat_ladder_large by assumption.
  destruct (nearest_double total_n 10) as [x |] eqn:Hx; [| discriminate].
  intros [= <-]. exists x.
  destruct (nearest_double_spec total_n 10 x ltac:(lia) ltac:(lia) Hx) as [Hq Hm].
  auto.
Qed.

Lemma repeat_ladder_mono (t1 t2 c1 c2 : Z) :
  t1 <= t2 ->
  repeat_ladder t1 = Ok (PyInt c1) -> repeat_ladder t2 = Ok (PyInt c2) ->
  c1 <= c2.
Proof.
  intros Hle H1 H2.
  destruct (Z.le_gt_cases t2 10) as [Hs2 | Hb2].
  - destruct (repeat_ladder_small t1 c1 ltac:(lia) H1),
             (repeat_ladder_small t2 c2 Hs2 H2); lia.
  - destruct (repeat_ladder_large_inv t2 c2 Hb2 H2) as (x2 & Hx2 & -> & Hq2 & Hm2).
    destruct (quotient_exponent_spec t2 10 ltac:(lia) ltac:(lia)) as (He2 & _).
    pose proof (ceil_bounds x2 _ He2 Hq2 Hm2) as [Hc2 _].
    assert (0 < 2 ^ quotient_exponent t2 10) by (apply Z.pow_pos_nonneg; lia).
    destruct (Z.le_gt_cases t1 10) as [Hs1 | Hb1].
    + destruct (repeat_ladder_small t1 c1 Hs1 H1); lia.
    + destruct (repeat_ladder_large_inv t1 c1 Hb1 H1) as (x1 & Hx1 & -> & Hq1 & Hm1).
      destruct (quotient_exponent_spec t1 10 ltac:(lia) ltac:(lia)) as (He1 & _).
      pose proof (quotient_exponent_mono t1 t2 10 ltac:(lia) ltac:(lia) Hle) as Hee.
      destruct (Z.eq_dec (quotient_exponent t1 10) (quotient_exponent t2 10)) as [E | NE].
      * apply ceil_mono_mant; [congruence |].
        apply (nearest_double_mono_mant t1 t2 10); auto; lia.
      * pose proof (ceil_bounds x1 _ He1 Hq1 Hm1) as [_ Hc1].
        assert (2 ^ (quotient_exponent t1 10 + 1) <= 2 ^ quotient_exponent t2 10)
          by (apply Z.pow_le_mono_r; lia).
        lia.
Qed.

Lemma repeat_ladder_bounds (total_n c : Z) :
  repeat_ladder total_n = Ok (PyInt c) ->
  0 <= c /\ (0 <= total_n -> c <= total_n).
Proof.
  intros H.
  destruct (Z.le_gt_cases total_n 10) as [Hs | Hb].
  - destruct (repeat_ladder_small total_n c Hs H); lia.
  - destruct (repeat_ladder_large_inv total_n c Hb H) as (x & Hx & -> & Hq & Hm).
    destruct (quotient_exponent_spec total_n 10 ltac:(lia) ltac:(lia)) as (He & Hlo & _).
    pose proof (ceil_bounds x _ He Hq Hm) as [Hc1 Hc2].
    assert (0 < 2 ^ quotient_exponent total_n 10) by (apply Z.pow_pos_nonneg; lia).
    rewrite Z.pow_add_r in Hc2 by lia. change (2 ^ 1) with 2 in Hc2.
    lia.
Qed.

Lemma repeat_ladder_exact (total_n : Z) :
  10 < total_n <= 10 * 2 ^ 50 ->
  repeat_ladder total_n = Ok (PyInt (ceil_quotient total_n 10)).
Proof.
  intros [Hlo Hhi].
  destruct (Z.eq_dec total_n (10 * 2 ^ 50)) as [-> | Hne].
  { vm_compute. reflexivity. }
  rewrite repeat_ladder_large by assumption.
  destruct (quotient_exponent_spec total_n 10 ltac:(lia) ltac:(lia)) as (He0 & Hel & Heh).
  set (e := quotient_exponent total_n 10) in *.
  assert (He : e <= 49).
  { destruct (Z.le_gt_cases e 49) as [| Hbig]; [assumption |]. exfalso.
    assert (2 ^ 50 <= 2 ^ e) by (apply Z.pow_le_mono_r; lia). lia. }
  rewrite nearest_double_below_53_bits by (lia || fold e; lia).
  fold e. do 2 f_equal. unfold ceil, ceil_quotient. cbn [expo mant].
  destruct (Z.leb_spec 0 (e - 52)); [lia |].
  replace (- (e - 52)) with (52 - e) by lia.
  assert (Hk : 2 ^ 3 <= 2 ^ (52 - e)) by (apply Z.pow_le_mono_r; lia).
  change (2 ^ 3) with 8 in Hk.
  set (k := 2 ^ (52 - e)) in *.
  pose proof (round_half_even_bounds (total_n * k) 10 ltac:(lia)) as [Hm1 Hm2].
  set (m := round_half_even (total_n * k) 10) in *.
  pose proof (Z.div_mod (- total_n) 10 ltac:(lia)) as Hdm.
  pose proof (Z.mod_pos_bound (- total_n) 10 ltac:(lia)) as Hr.
  set (C := - (- total_n / 10)) in *.
  assert (HC : 10 * C - 9 <= total_n <= 10 * C) by lia.
  assert (Hdiv : - m / k = - C).
  { symmetry. apply (Z.div_unique (- m) k (- C) (k * C - m)); [| lia].
    left. split; nia. }
  rewrite Hdiv. lia.
Qed.

(** ** The resolved total and the allocated arms *)

Lemma dict_get_present (d : gmap string PyVal) (k : string) (v : PyVal) :
  d !! k = Some v -> dict_get d k = v.
Proof. intros H. unfold dict_get. now rewrite H. Qed.

Lemma dict_get_none (d : gmap string PyVal) (k : string) :
  d !! k = None \/ d !! k = Some PyNone -> dict_get d k = PyNone.
Proof. intros [H | H]; unfold dict_get; now rewrite H. Qed.

Lemma is_not_none_true (v : PyVal) : v <> PyNone -> is_not_none v = true.
Proof. destruct v; [congruence | reflexivity ..]. Qed.

Lemma resolved_total_total_n_of next_node gs_gen_call_kwargs experiment (v : PyVal) :
  resolved_total next_node gs_gen_call_kwargs experiment v ->
  total_n_of next_node gs_gen_call_kwargs experiment = v.
Proof.
  intros [w Hw Hnn | Hnone]; unfold total_n_of.
  - rewrite (dict_get_present _ _ _ Hw). now rewrite is_not_none_true.
  - now rewrite (dict_get_none _ _ Hnone).
Qed.

Lemma resolved_total_exists next_node gs_gen_call_kwargs experiment :
  resolved_total next_node gs_gen_call_kwargs experiment
    (total_n_of next_node gs_gen_call_kwargs experiment).
Proof.
  unfold total_n_of, dict_get.
  destruct (gs_gen_call_kwargs !! "n") as [[| z | grs | obs] |] eqn:Hn; simpl;
    solve [ apply total_default; auto
          | apply total_explicit; [assumption | discriminate] ].
Qed.

Lemma sum_arms_from (grs : list GeneratorRun) (acc : Z) :
  fold_left (fun acc gr => acc + Z.of_nat (length (arms gr))) grs acc
  = acc + allocated grs.
Proof.
  revert acc. induction grs as [| gr rest IH]; intros acc; simpl.
  - lia.
  - rewrite IH. lia.
Qed.

Lemma sum_arms_allocated (grs : list GeneratorRun) :
  sum_arms (PyGrs grs) = Ok (allocated grs).
Proof. simpl. now rewrite sum_arms_from. Qed.

Lemma allocated_nonneg (grs : list GeneratorRun) : 0 <= allocated grs.
Proof. induction grs; simpl; lia. Qed.

Lemma results_this_gen_get gs_gen_call_kwargs (grs : list GeneratorRun) :
  results_this_gen gs_gen_call_kwargs grs ->
  dict_get_default gs_gen_call_kwargs "grs_this_gen" (PyGrs []) = PyGrs grs.
Proof. intros [g H | H]; unfold dict_get_default; now rewrite H. Qed.

Lemma repeat_arm_n_total previous_node next_node gs_gen_call_kwargs experiment (total_n : Z) :
  resolved_total next_node gs_gen_call_kwargs experiment (PyInt total_n) ->
  repeat_arm_n previous_node next_node gs_gen_call_kwargs experiment
  = repeat_ladder total_n.
Proof.
  intros H. apply resolved_total_total_n_of in H.
  unfold repeat_arm_n. fold (total_n_of next_node gs_gen_call_kwargs experiment).
  rewrite H. reflexivity.
Qed.

Lemma remaining_n_total previous_node next_node gs_gen_call_kwargs experiment
    (total_n : Z) (grs : list GeneratorRun) :
  resolved_total next_node gs_gen_call_kwargs experiment (PyInt total_n) ->
  results_this_gen gs_gen_call_kwargs grs ->
  remaining_n previous_node next_node gs_gen_call_kwargs experiment
  = Ok (PyInt (Z.max (total_n - allocated grs) 0)).
Proof.
  intros H Hg. apply resolved_total_total_n_of in H.
  unfold remaining_n. fold (total_n_of next_node gs_gen_call_kwargs experiment).
  rewrite H, (results_this_gen_get _ _ Hg), sum_arms_allocated. reflexivity.
Qed.

Lemma string_app_assoc (a b c : string) :
  (a +:+ b) +:+ c = a +:+ (b +:+ c).
Proof.
  induction a as [| ch a IH]; [reflexivity |].
  change (String ch ((a +:+ b) +:+ c) = String ch (a +:+ (b +:+ c))).
  now f_equal.
Qed.

(** ** The input constructors *)

(** C1: [remaining_n] returns [max (T - allocated) 0], where [T] is the
    resolved total count and [allocated] sums the arm counts of the results
    under "grs_this_gen" (none when the key is absent); the result is never
    negative and is [0] as soon as [allocated] reaches [T]. *)
Theorem remaining_n_max previous_node next_node gs_gen_call_kwargs experiment
    (T : Z) (grs : list GeneratorRun) :
  resolved_total next_node gs_gen_call_kwargs experiment (PyInt T) ->
  results_this_gen gs_gen_call_kwargs grs ->
  exists r,
    remaining_n previous_node next_node gs_gen_call_kwargs experiment = Ok (PyInt r)
    /\ r = Z.max (T - allocated grs) 0
    /\ 0 <= r
    /\ (T <= allocated grs -> r = 0).
Proof.
  intros HT Hg. exists (Z.max (T - allocated grs) 0).
  split; [now apply remaining_n_total |]. lia.
Qed.

(** C3: [set_target_trial] raises [AxGenerationException] exactly when
    [get_target_trial_index] returns [None]; the message then shows the next
    node and the trials of the experiment.  When the index is [k], the
    result is an [ObservationFeatures] with no parameters and trial index
    [k]; the function never returns [None]. *)
Theorem set_target_trial_raises_iff_no_target previous_node next_node
    gs_gen_call_kwargs experiment :
  ((exists e, set_target_trial previous_node next_node gs_gen_call_kwargs experiment
              = Raise e)
   <-> get_target_trial_index experiment = None)
  /\ (get_target_trial_index experiment = None ->
      exists before between after,
        set_target_trial previous_node next_node gs_gen_call_kwargs experiment
        = Raise (AxGenerationException
                   (before +:+ GenerationNode_str next_node +:+ between
                    +:+ trials_str (trials experiment) +:+ after)))
  /\ (forall k, get_target_trial_index experiment = Some k ->
      set_target_trial previous_node next_node gs_gen_call_kwargs experiment
      = Ok (PyObs {| parameters := ∅; trial_index := Some k |}))
  /\ set_target_trial previous_node next_node gs_gen_call_kwargs experiment
     <> Ok PyNone.
Proof.
  unfold set_target_trial.
  destruct (get_target_trial_index experiment) as [k |].
  - repeat split; try discriminate.
    + intros [e He]. discriminate.
    + intros k' [= <-]. reflexivity.
  - repeat split; try discriminate.
    + eauto.
    + intros _.
      exists "Attempting to construct for input into ".
      exists (" but no trials match the expected conditions. Often this could be due to no trials on the experiment that are in status "
              +:+ STATUSES_EXPECTING_DATA_str
              +:+ " on the experiment. The trials on this experiment are: ").
      exists ".".
      now rewrite !string_app_assoc.
Qed.

(** C5: [consume_all_n] returns the value under "n" as it is when the key
    holds a value other than [None], and the output of [_get_default_n]
    otherwise. *)
Theorem consume_all_n_explicit_or_default previous_node next_node
    gs_gen_call_kwargs experiment :
  (forall v, gs_gen_call_kwargs !! "n" = Some v -> v <> PyNone ->
     consume_all_n previous_node next_node gs_gen_call_kwargs experiment = Ok v)
  /\ (gs_gen_call_kwargs !! "n" = None \/ gs_gen_call_kwargs !! "n" = Some PyNone ->
      consume_all_n previous_node next_node gs_gen_call_kwargs experiment
      = Ok (_get_default_n experiment next_node)).
Proof.
  unfold consume_all_n. split.
  - intros v Hv Hnn.
    rewrite (dict_get_present _ _ _ Hv). now rewrite is_not_none_true.
  - intros Hnone. now rewrite (dict_get_none _ _ Hnone).
Qed.

(** C6: [_get_default_n] returns the property
    [EXPERIMENT_TOTAL_CONCURRENT_ARMS] of the experiment as it is when it is
    there and not [None], and ten times [DEFAULT_N] otherwise. *)
Theorem default_n_property_or_ten_times_default experiment next_node :
  (forall v, _properties experiment !! EXPERIMENT_TOTAL_CONCURRENT_ARMS = Some v ->
     v <> PyNone -> _get_default_n experiment next_node = v)
  /\ (_properties experiment !! EXPERIMENT_TOTAL_CONCURRENT_ARMS = None
      \/ _properties experiment !! EXPERIMENT_TOTAL_CONCURRENT_ARMS = Some PyNone ->
      _get_default_n experiment next_node
      = PyInt (10 * DEFAULT_N (generation_strategy next_node))).
Proof.
  unfold _get_default_n. split.
  - intros v Hv Hnn.
    rewrite (dict_get_present _ _ _ Hv). now rewrite is_not_none_true.
  - intros Hnone. rewrite (dict_get_none _ _ Hnone). simpl. f_equal. lia.
Qed.

(** C4, amended: when the property [EXPERIMENT_TOTAL_CONCURRENT_ARMS] is
    absent or [None] and [DEFAULT_N] is at least one, [_get_default_n]
    returns an integer at least one and at least [DEFAULT_N]; a property
    that is present is returned as it is, whatever its value. *)
Theorem default_n_lower_bound_without_property experiment next_node :
  1 <= DEFAULT_N (generation_strategy next_node) ->
  (_properties experiment !! EXPERIMENT_TOTAL_CONCURRENT_ARMS = None
   \/ _properties experiment !! EXPERIMENT_TOTAL_CONCURRENT_ARMS = Some PyNone ->
   exists v, _get_default_n experiment next_node = PyInt v
             /\ 1 <= v /\ DEFAULT_N (generation_strategy next_node) <= v)
  /\ (forall p, _properties experiment !! EXPERIMENT_TOTAL_CONCURRENT_ARMS
                = Some (PyInt p) ->
      _get_default_n experiment next_node = PyInt p).
Proof.
  intros HD. unfold _get_default_n. split.
  - intros Hnone. rewrite (dict_get_none _ _ Hnone). simpl.
    eexists. split; [reflexivity | lia].
  - intros p Hp. now rewrite (dict_get_present _ _ _ Hp).
Qed.

Lemma repeat_ladder_int (total_n : Z) (v : PyVal) :
  repeat_ladder total_n = Ok v -> exists c, v = PyInt c.
Proof.
  unfold repeat_ladder.
  destruct (total_n <? 6); [intros [= <-]; eauto |].
  destruct (total_n <=? 10); [intros [= <-]; eauto |].
  destruct (int_truediv total_n 10); simpl; [intros [= <-]; eauto | discriminate].
Qed.

(** The ladder of [repeat_arm_n], as far as the double holds the quotient
    closely enough. *)
Lemma repeat_arm_n_ladder previous_node next_node gs_gen_call_kwargs experiment (T : Z) :
  resolved_total next_node gs_gen_call_kwargs experiment (PyInt T) ->
  (T < 6 ->
   repeat_arm_n previous_node next_node gs_gen_call_kwargs experiment = Ok (PyInt 0))
  /\ (6 <= T <= 10 ->
      repeat_arm_n previous_node next_node gs_gen_call_kwargs experiment = Ok (PyInt 1))
  /\ (10 < T <= 10 * 2 ^ 50 ->
      repeat_arm_n previous_node next_node gs_gen_call_kwargs experiment
      = Ok (PyInt (ceil_quotient T 10)))
  /\ (10 * (2 ^ 1024 - 2 ^ 970) <= T ->
      repeat_arm_n previous_node next_node gs_gen_call_kwargs experiment
      = Raise OverflowError).
Proof.
  intros HT. rewrite (repeat_arm_n_total _ _ _ _ _ HT).
  repeat split.
  - intros H. unfold repeat_ladder. destruct (Z.ltb_spec T 6); [reflexivity | lia].
  - intros H. unfold repeat_ladder.
    destruct (Z.ltb_spec T 6); [lia |].
    destruct (Z.leb_spec T 10); [reflexivity | lia].
  - apply repeat_ladder_exact.
  - apply repeat_ladder_overflow.
Qed.

(** C2: with [n = 10 * 2^50 + 1] the quotient [n / 10] is the double
    [2^50], so [repeat_arm_n] returns [2^50], while the ceiling of the exact
    quotient is [2^50 + 1]. *)
Theorem repeat_arm_n_below_ceiling_at_large_total previous_node next_node experiment :
  repeat_arm_n previous_node next_node {[ "n" := PyInt (10 * 2 ^ 50 + 1) ]} experiment
  = Ok (PyInt (2 ^ 50))
  /\ ceil_quotient (10 * 2 ^ 50 + 1) 10 = 2 ^ 50 + 1.
Proof.
  split; [| reflexivity].
  rewrite (repeat_arm_n_total _ _ _ _ (10 * 2 ^ 50 + 1)).
  - vm_compute. reflexivity.
  - apply total_explicit; [apply lookup_singleton_eq | discriminate].
Qed.

(** C7, amended: each member of the enum dispatches to the function its
    value names and returns what that function returns on the four
    arguments.  When the resolved total count is an integer (as it is when
    "n" and the property of the experiment are each absent, [None] or an
    integer) the result of the three count members is an integer; the
    result of [TARGET_TRIAL_FIXED_FEATURES] is an [ObservationFeatures].  A
    value that names nothing in the module raises a [ValueError] giving the
    value and the file. *)
Theorem dispatch_calls_named_constructor_on_typed_call previous_node next_node
    gs_gen_call_kwargs experiment :
  (forall self,
     module_getattr (value self) = Some (InputConstructor (constructor_of self))
     /\ NodeInputConstructors_call self previous_node next_node gs_gen_call_kwargs experiment
        = constructor_of self previous_node next_node gs_gen_call_kwargs experiment)
  /\ (int_or_none (gs_gen_call_kwargs !! "n") ->
      int_or_none (_properties experiment !! EXPERIMENT_TOTAL_CONCURRENT_ARMS) ->
      exists T, resolved_total next_node gs_gen_call_kwargs experiment (PyInt T))
  /\ (forall self v,
        (purpose_of self = InputConstructorPurpose.N ->
         exists T, resolved_total next_node gs_gen_call_kwargs experiment (PyInt T)) ->
        NodeInputConstructors_call self previous_node next_node gs_gen_call_kwargs experiment
        = Ok v ->
        has_purpose_type (purpose_of self) v)
  /\ (forall name,
        module_getattr name = None ->
        call_value name previous_node next_node gs_gen_call_kwargs experiment
        = Raise (ValueError
                   (name +:+ " is not defined as a method in ``generation_node_input_constructors.py``. Please add the method to the file."))).
Proof.
  assert (Hcall : forall self,
    module_getattr (value self) = Some (InputConstructor (constructor_of self))
    /\ NodeInputConstructors_call self previous_node next_node gs_gen_call_kwargs experiment
       = constructor_of self previous_node next_node gs_gen_call_kwargs experiment).
  { intros self. destruct self; split; reflexivity. }
  split; [exact Hcall |]. split; [| split].
  - intros Hn Hp.
    exists (match gs_gen_call_kwargs !! "n" with
            | Some (PyInt z) => z
            | _ => match _properties experiment !! EXPERIMENT_TOTAL_CONCURRENT_ARMS with
                   | Some (PyInt p) => p
                   | _ => DEFAULT_N (generation_strategy next_node) * 10
                   end
            end).
    inversion Hn as [Hkn | Hkn | z Hkn]; symmetry in Hkn.
    + replace (PyInt _) with (_get_default_n experiment next_node).
      * apply total_default. now left.
      * unfold _get_default_n, dict_get.
        inversion Hp as [Hkp | Hkp | p Hkp]; reflexivity.
    + replace (PyInt _) with (_get_default_n experiment next_node).
      * apply total_default. now right.
      * unfold _get_default_n, dict_get.
        inversion Hp as [Hkp | Hkp | p Hkp]; reflexivity.
    + apply total_explicit; [assumption | discriminate].
  - intros self v Htyped Hv. rewrite (proj2 (Hcall self)) in Hv.
    destruct self; simpl in *.
    + destruct (Htyped eq_refl) as [T HT].
      unfold consume_all_n in Hv.
      fold (total_n_of next_node gs_gen_call_kwargs experiment) in Hv.
      rewrite (resolved_total_total_n_of _ _ _ _ HT) in Hv.
      injection Hv as <-. eauto.
    + destruct (Htyped eq_refl) as [T HT].
      rewrite (repeat_arm_n_total _ _ _ _ _ HT) in Hv.
      eapply repeat_ladder_int; eassumption.
    + destruct (Htyped eq_refl) as [T HT].
      unfold remaining_n in Hv.
      destruct (sum_arms _); simpl in Hv; [| discriminate].
      destruct (py_sub _ _); simpl in Hv; [| discriminate].
      injection Hv as <-. eauto.
    + unfold set_target_trial in Hv.
      destruct (get_target_trial_index experiment); [| discriminate].
      injection Hv as <-. eauto.
  - intros name Hname. unfold call_value. now rewrite Hname.
Qed.

(** C8: the count [repeat_arm_n] returns does not decrease when the
    resolved total count grows; it is returned for every total below the
    overflow of the quotient; it is 0 at 5, 1 at 6 and at 10, 2 at 11 and
    10 at 100. *)
Theorem repeat_arm_n_monotone :
  (forall previous_node1 next_node1 kwargs1 experiment1
          previous_node2 next_node2 kwargs2 experiment2 T1 T2 v1 v2,
     resolved_total next_node1 kwargs1 experiment1 (PyInt T1) ->
     resolved_total next_node2 kwargs2 experiment2 (PyInt T2) ->
     T1 <= T2 ->
     repeat_arm_n previous_node1 next_node1 kwargs1 experiment1 = Ok v1 ->
     repeat_arm_n previous_node2 next_node2 kwargs2 experiment2 = Ok v2 ->
     exists c1 c2, v1 = PyInt c1 /\ v2 = PyInt c2 /\ c1 <= c2)
  /\ (forall previous_node next_node kwargs experiment T,
        resolved_total next_node kwargs experiment (PyInt T) ->
        T < 10 * (2 ^ 1024 - 2 ^ 970) ->
        exists c, repeat_arm_n previous_node next_node kwargs experiment = Ok (PyInt c))
  /\ (forall previous_node next_node kwargs experiment T,
        resolved_total next_node kwargs experiment (PyInt T) ->
        (T = 5 -> repeat_arm_n previous_node next_node kwargs experiment = Ok (PyInt 0))
        /\ (T = 6 -> repeat_arm_n previous_node next_node kwargs experiment = Ok (PyInt 1))
        /\ (T = 10 -> repeat_arm_n previous_node next_node kwargs experiment = Ok (PyInt 1))
        /\ (T = 11 -> repeat_arm_n previous_node next_node kwargs experiment = Ok (PyInt 2))
        /\ (T = 100 -> repeat_arm_n previous_node next_node kwargs experiment = Ok (PyInt 10))).
Proof.
  split; [| split].
  - intros p1 n1 k1 e1 p2 n2 k2 e2 T1 T2 v1 v2 H1 H2 Hle Hv1 Hv2.
    rewrite (repeat_arm_n_total _ _ _ _ _ H1) in Hv1.
    rewrite (repeat_arm_n_total _ _ _ _ _ H2) in Hv2.
    destruct (repeat_ladder_int _ _ Hv1) as [c1 ->].
    destruct (repeat_ladder_int _ _ Hv2) as [c2 ->].
    exists c1, c2. repeat split. eapply repeat_ladder_mono; eassumption.
  - intros p n k e T HT Hlt. rewrite (repeat_arm_n_total _ _ _ _ _ HT).
    now apply repeat_ladder_returns.
  - intros p n k e T HT. rewrite (repeat_arm_n_total _ _ _ _ _ HT).
    repeat split; intros ->; vm_compute; reflexivity.
Qed.

(** C9: when the key "n" holds a value other than [None], each of
    [consume_all_n], [repeat_arm_n] and [remaining_n] gives the same outcome
    whatever the experiment and the nodes. *)
Theorem explicit_n_ignores_experiment_and_nodes
    (gs_gen_call_kwargs : gmap string PyVal) (v : PyVal)
    previous_node1 next_node1 experiment1 previous_node2 next_node2 experiment2 :
  gs_gen_call_kwargs !! "n" = Some v -> v <> PyNone ->
  consume_all_n previous_node1 next_node1 gs_gen_call_kwargs experiment1
  = consume_all_n previous_node2 next_node2 gs_gen_call_kwargs experiment2
  /\ repeat_arm_n previous_node1 next_node1 gs_gen_call_kwargs experiment1
     = repeat_arm_n previous_node2 next_node2 gs_gen_call_kwargs experiment2
  /\ remaining_n previous_node1 next_node1 gs_gen_call_kwargs experiment1
     = remaining_n previous_node2 next_node2 gs_gen_call_kwargs experiment2.
Proof.
  intros Hv Hnn.
  unfold consume_all_n, repeat_arm_n, remaining_n.
  rewrite !(dict_get_present _ _ _ Hv), !(is_not_none_true _ Hnn).
  repeat split.
Qed.

(** C10: the count [repeat_arm_n] returns is never negative, is 0 for a
    negative total, and is at most the total when the total is not
    negative; it is returned for every total below the overflow of the
    quotient. *)
Theorem repeat_arm_n_between_zero_and_total previous_node next_node
    gs_gen_call_kwargs experiment (T : Z) :
  resolved_total next_node gs_gen_call_kwargs experiment (PyInt T) ->
  (forall v,
     repeat_arm_n previous_node next_node gs_gen_call_kwargs experiment = Ok v ->
     exists c, v = PyInt c /\ 0 <= c /\ (0 <= T -> c <= T))
  /\ (T < 0 ->
      repeat_arm_n previous_node next_node gs_gen_call_kwargs experiment = Ok (PyInt 0))
  /\ (T < 10 * (2 ^ 1024 - 2 ^ 970) ->
      exists c,
        repeat_arm_n previous_node next_node gs_gen_call_kwargs experiment = Ok (PyInt c)).
Proof.
  intros HT. rewrite (repeat_arm_n_total _ _ _ _ _ HT).
  split; [| split].
  - intros v Hv. destruct (repeat_ladder_int _ _ Hv) as [c ->].
    exists c. split; [reflexivity |]. now apply repeat_ladder_bounds.
  - intros Hneg. unfold repeat_ladder.
    destruct (Z.ltb_spec T 6); [reflexivity | lia].
  - apply repeat_ladder_returns.
Qed.

(** ** Further properties of the input constructors *)

Lemma repeat_arm_n_by_total previous_node next_node gs_gen_call_kwargs experiment :
  repeat_arm_n previous_node next_node gs_gen_call_kwargs experiment
  = match total_n_of next_node gs_gen_call_kwargs experiment with
    | PyInt T => repeat_ladder T
    | _ => Raise TypeError
    end.
Proof.
  unfold repeat_arm_n. fold (total_n_of next_node gs_gen_call_kwargs experiment).
  destruct (total_n_of next_node gs_gen_call_kwargs experiment); reflexivity.
Qed.

Lemma remaining_n_by_total previous_node next_node gs_gen_call_kwargs experiment :
  remaining_n previous_node next_node gs_gen_call_kwargs experiment
  = match dict_get_default gs_gen_call_kwargs "grs_this_gen" (PyGrs []) with
    | PyGrs grs =>
        match total_n_of next_node gs_gen_call_kwargs experiment with
        | PyInt T => Ok (PyInt (Z.max (T - allocated grs) 0))
        | _ => Raise TypeError
        end
    | _ => Raise TypeError
    end.
Proof.
  unfold remaining_n. fold (total_n_of next_node gs_gen_call_kwargs experiment).
  destruct (dict_get_default gs_gen_call_kwargs "grs_this_gen" (PyGrs []))
    as [| z | grs | obs]; try reflexivity.
  rewrite sum_arms_allocated.
  destruct (total_n_of next_node gs_gen_call_kwargs experiment); reflexivity.
Qed.

Lemma repeat_ladder_raises (total_n : Z) (e : exn) :
  repeat_ladder total_n = Raise e ->
  e = OverflowError /\ 10 * (2 ^ 1024 - 2 ^ 970) <= total_n.
Proof.
  intros H.
  destruct (Z.lt_ge_cases total_n (10 * (2 ^ 1024 - 2 ^ 970))) as [Hlt | Hge].
  - destruct (repeat_ladder_returns total_n Hlt) as [c Hc]. congruence.
  - rewrite (repeat_ladder_overflow total_n Hge) in H. injection H as <-. auto.
Qed.

Lemma total_n_of_same_n next_node (kwargs1 kwargs2 : gmap string PyVal) experiment :
  kwargs1 !! "n" = kwargs2 !! "n" ->
  total_n_of next_node kwargs1 experiment = total_n_of next_node kwargs2 experiment.
Proof. intros H. unfold total_n_of, dict_get. now rewrite H. Qed.

Lemma _get_default_n_not_none experiment next_node :
  _get_default_n experiment next_node <> PyNone.
Proof.
  unfold _get_default_n.
  destruct (dict_get (_properties experiment) EXPERIMENT_TOTAL_CONCURRENT_ARMS);
    discriminate.
Qed.

Lemma total_n_of_not_none next_node gs_gen_call_kwargs experiment :
  total_n_of next_node gs_gen_call_kwargs experiment <> PyNone.
Proof.
  unfold total_n_of.
  destruct (dict_get gs_gen_call_kwargs "n") eqn:Hn; simpl;
    try discriminate. apply _get_default_n_not_none.
Qed.

Lemma allocated_app (grs1 grs2 : list GeneratorRun) :
  allocated (grs1 ++ grs2) = allocated grs1 + allocated grs2.
Proof. induction grs1 as [| gr rest IH]; simpl; lia. Qed.

Lemma allocated_Permutation (grs1 grs2 : list GeneratorRun) :
  grs1 ≡ₚ grs2 -> allocated grs1 = allocated grs2.
Proof. induction 1; simpl; lia. Qed.

(** X1: a call that passes [n=None] behaves as a call that passes no
    [n] at all, for each of the three count constructors. *)
Theorem none_n_is_absent_n previous_node next_node
    (gs_gen_call_kwargs : gmap string PyVal) experiment :
  consume_all_n previous_node next_node (<["n" := PyNone]> gs_gen_call_kwargs) experiment
  = consume_all_n previous_node next_node (delete "n" gs_gen_call_kwargs) experiment
  /\ repeat_arm_n previous_node next_node (<["n" := PyNone]> gs_gen_call_kwargs) experiment
     = repeat_arm_n previous_node next_node (delete "n" gs_gen_call_kwargs) experiment
  /\ remaining_n previous_node next_node (<["n" := PyNone]> gs_gen_call_kwargs) experiment
     = remaining_n previous_node next_node (delete "n" gs_gen_call_kwargs) experiment.
Proof.
  assert (Ht : total_n_of next_node (<["n" := PyNone]> gs_gen_call_kwargs) experiment
               = total_n_of next_node (delete "n" gs_gen_call_kwargs) experiment).
  { unfold total_n_of, dict_get. now rewrite lookup_insert_eq, lookup_delete_eq. }
  split; [| split].
  - unfold consume_all_n.
    fold (total_n_of next_node (<["n" := PyNone]> gs_gen_call_kwargs) experiment).
    fold (total_n_of next_node (delete "n" gs_gen_call_kwargs) experiment).
    now rewrite Ht.
  - now rewrite !repeat_arm_n_by_total, Ht.
  - rewrite !remaining_n_by_total, Ht. unfold dict_get_default.
    now rewrite lookup_insert_ne, lookup_delete_ne by discriminate.
Qed.

(** X2: the count constructors read no key of the keyword mapping other
    than "n" and "grs_this_gen": adding or changing any other key changes
    none of their outcomes. *)
Theorem other_keys_are_ignored previous_node next_node
    (gs_gen_call_kwargs : gmap string PyVal) experiment (key : string) (v : PyVal) :
  key <> "n" -> key <> "grs_this_gen" ->
  consume_all_n previous_node next_node (<[key := v]> gs_gen_call_kwargs) experiment
  = consume_all_n previous_node next_node gs_gen_call_kwargs experiment
  /\ repeat_arm_n previous_node next_node (<[key := v]> gs_gen_call_kwargs) experiment
     = repeat_arm_n previous_node next_node gs_gen_call_kwargs experiment
  /\ remaining_n previous_node next_node (<[key := v]> gs_gen_call_kwargs) experiment
     = remaining_n previous_node next_node gs_gen_call_kwargs experiment.
Proof.
  intros Hn Hg.
  assert (Ht : total_n_of next_node (<[key := v]> gs_gen_call_kwargs) experiment
               = total_n_of next_node gs_gen_call_kwargs experiment).
  { apply total_n_of_same_n. now rewrite lookup_insert_ne. }
  split; [| split].
  - unfold consume_all_n.
    fold (total_n_of next_node (<[key := v]> gs_gen_call_kwargs) experiment).
    fold (total_n_of next_node gs_gen_call_kwargs experiment).
    now rewrite Ht.
  - now rewrite !repeat_arm_n_by_total, Ht.
  - rewrite !remaining_n_by_total, Ht. unfold dict_get_default.
    now rewrite lookup_insert_ne.
Qed.

(** X3: on an integer total [repeat_arm_n] raises exactly when the total
    is at least [10 * (2^1024 - 2^970)], where the quotient by ten no
    longer fits a double, and what it raises is then [OverflowError]. *)
Theorem repeat_arm_n_raises_only_on_overflow previous_node next_node
    gs_gen_call_kwargs experiment (T : Z) :
  resolved_total next_node gs_gen_call_kwargs experiment (PyInt T) ->
  (repeat_arm_n previous_node next_node gs_gen_call_kwargs experiment
   = Raise OverflowError
   <-> 10 * (2 ^ 1024 - 2 ^ 970) <= T)
  /\ (forall e,
        repeat_arm_n previous_node next_node gs_gen_call_kwargs experiment = Raise e ->
        e = OverflowError)
  /\ (T < 10 * (2 ^ 1024 - 2 ^ 970) ->
      exists c,
        repeat_arm_n previous_node next_node gs_gen_call_kwargs experiment
        = Ok (PyInt c)).
Proof.
  intros HT. rewrite (repeat_arm_n_total _ _ _ _ _ HT).
  split; [| split].
  - split.
    + intros H. now apply repeat_ladder_raises in H as [_ H].
    + apply repeat_ladder_overflow.
  - intros e H. now apply repeat_ladder_raises in H as [-> _].
  - apply repeat_ladder_returns.
Qed.

(** X5: when a generator run is appended to "grs_this_gen", the integer
    [remaining_n] returns goes down by the number of arms of that run, and
    stops at 0; a run with at least as many arms as were remaining brings
    it to 0. *)
Theorem remaining_n_after_one_more_run previous_node next_node
    (gs_gen_call_kwargs : gmap string PyVal) experiment
    (grs : list GeneratorRun) (gr : GeneratorRun) (r : Z) :
  results_this_gen gs_gen_call_kwargs grs ->
  remaining_n previous_node next_node gs_gen_call_kwargs experiment = Ok (PyInt r) ->
  remaining_n previous_node next_node
    (<["grs_this_gen" := PyGrs (grs ++ [gr])]> gs_gen_call_kwargs) experiment
  = Ok (PyInt (Z.max (r - Z.of_nat (length (arms gr))) 0))
  /\ (r <= Z.of_nat (length (arms gr)) ->
      remaining_n previous_node next_node
        (<["grs_this_gen" := PyGrs (grs ++ [gr])]> gs_gen_call_kwargs) experiment
      = Ok (PyInt 0)).
Proof.
  intros Hg Hr.
  assert (Hnew : remaining_n previous_node next_node
                   (<["grs_this_gen" := PyGrs (grs ++ [gr])]> gs_gen_call_kwargs)
                   experiment
                 = Ok (PyInt (Z.max (r - Z.of_nat (length (arms gr))) 0))).
  { rewrite remaining_n_by_total in Hr |- *.
    rewrite (results_this_gen_get _ _ Hg) in Hr.
    unfold dict_get_default at 1. rewrite lookup_insert_eq. simpl.
    rewrite (total_n_of_same_n next_node _ gs_gen_call_kwargs)
      by (now rewrite lookup_insert_ne).
    destruct (total_n_of next_node gs_gen_call_kwargs experiment);
      try discriminate.
    injection Hr as <-. rewrite allocated_app. simpl.
    pose proof (allocated_nonneg grs). do 2 f_equal. lia. }
  split; [exact Hnew |].
  intros Hle. rewrite Hnew. do 2 f_equal. lia.
Qed.

(** X6: [remaining_n] does not depend on the order of the generator runs
    under "grs_this_gen". *)
Theorem remaining_n_any_order_of_runs previous_node next_node
    (gs_gen_call_kwargs : gmap string PyVal) experiment
    (grs grs' : list GeneratorRun) :
  results_this_gen gs_gen_call_kwargs grs ->
  grs ≡ₚ grs' ->
  remaining_n previous_node next_node
    (<["grs_this_gen" := PyGrs grs']> gs_gen_call_kwargs) experiment
  = remaining_n previous_node next_node gs_gen_call_kwargs experiment.
Proof.
  intros Hg Hp. rewrite !remaining_n_by_total.
  rewrite (results_this_gen_get _ _ Hg).
  unfold dict_get_default at 1. rewrite lookup_insert_eq. simpl.
  rewrite (total_n_of_same_n next_node _ gs_gen_call_kwargs)
    by (now rewrite lookup_insert_ne).
  now rewrite (allocated_Permutation _ _ Hp).
Qed.

(** X7: the count [repeat_arm_n] returns tells the band of the total: it
    is 0 exactly for a total below 6, 1 exactly for a total from 6 to 10,
    and at least 2 exactly for a total above 10. *)
Theorem repeat_arm_n_band previous_node next_node gs_gen_call_kwargs experiment
    (T c : Z) :
  resolved_total next_node gs_gen_call_kwargs experiment (PyInt T) ->
  repeat_arm_n previous_node next_node gs_gen_call_kwargs experiment = Ok (PyInt c) ->
  (c = 0 <-> T < 6) /\ (c = 1 <-> 6 <= T <= 10) /\ (2 <= c <-> 10 < T).
Proof.
  intros HT Hc. rewrite (repeat_arm_n_total _ _ _ _ _ HT) in Hc.
  destruct (Z.le_gt_cases T 10) as [Hs | Hb].
  - destruct (repeat_ladder_small T c Hs Hc); lia.
  - assert (H11 : repeat_ladder 11 = Ok (PyInt 2)) by (vm_compute; reflexivity).
    pose proof (repeat_ladder_mono 11 T 2 c ltac:(lia) H11 Hc). lia.
Qed.

(** X8: above 10 the count [repeat_arm_n] returns is the ceiling of a
    quotient that is off the exact [T / 10] by a relative error of at most
    [2^-53]: [T * (1 - 2^-53) <= 10 * c] and [10 * (c - 1) < T * (1 + 2^-53)]. *)
Theorem repeat_arm_n_relative_error previous_node next_node gs_gen_call_kwargs
    experiment (T c : Z) :
  resolved_total next_node gs_gen_call_kwargs experiment (PyInt T) ->
  10 < T ->
  repeat_arm_n previous_node next_node gs_gen_call_kwargs experiment = Ok (PyInt c) ->
  T * (2 ^ 53 - 1) <= 10 * c * 2 ^ 53
  /\ 10 * (c - 1) * 2 ^ 53 < T * (2 ^ 53 + 1).
Proof.
  intros HT Hbig Hc. rewrite (repeat_arm_n_total _ _ _ _ _ HT) in Hc.
  destruct (repeat_ladder_large_inv T c Hbig Hc) as (x & Hx & -> & Hq & Hm).
  destruct (quotient_exponent_spec T 10 ltac:(lia) ltac:(lia)) as (He & Hlo & _).
  pose proof (nearest_double_half_ulp T 10 x ltac:(lia) ltac:(lia) Hx) as Hulp.
  set (e := quotient_exponent T 10) in *.
  unfold ceil. rewrite Hq in *.
  assert (H53 : 2 ^ 53 = 2 * 2 ^ 52) by reflexivity.
  destruct (Z.leb_spec 0 (e - 52)) as [Hl | Hs].
  - assert (Hk : 2 ^ 52 * 2 ^ (e - 52) = 2 ^ e).
    { rewrite <- Z.pow_add_r by lia. f_equal. lia. }
    assert (Hkp : 0 < 2 ^ (e - 52)) by (apply Z.pow_pos_nonneg; lia).
    set (k := 2 ^ (e - 52)) in *. set (P := 2 ^ 52) in *.
    assert (HP : 0 < P) by reflexivity.
    assert (10 * k * P <= T) by nia.
    rewrite H53. split; nia.
  - replace (- (e - 52)) with (52 - e) in * by lia.
    assert (Hk : 2 ^ e * 2 ^ (52 - e) = 2 ^ 52).
    { rewrite <- Z.pow_add_r by lia. f_equal. lia. }
    assert (Hkp : 0 < 2 ^ (52 - e)) by (apply Z.pow_pos_nonneg; lia).
    assert (Hep : 0 < 2 ^ e) by (apply Z.pow_pos_nonneg; lia).
    set (k := 2 ^ (52 - e)) in *. set (P := 2 ^ 52) in *.
    assert (HP : 0 < P) by reflexivity.
    assert (HTk : 10 * P <= T * k) by nia.
    pose proof (Z.div_mod (- mant x) k ltac:(lia)) as Hdm.
    pose proof (Z.mod_pos_bound (- mant x) k Hkp) as Hr.
    set (c := - (- mant x / k)) in *.
    assert (Hc1 : mant x <= c * k) by nia.
    assert (Hc2 : (c - 1) * k < mant x) by nia.
    rewrite H53. split.
    + apply (Zmult_le_reg_r _ _ k); [lia | nia].
    + apply (Zmult_lt_reg_r _ _ k); [lia | nia].
Qed.

(** X9: what a dispatched member can raise on a well-typed call (the
    resolved total is an integer and "grs_this_gen" is absent or a list of
    generator runs): [ALL_N] and [REMAINING_N] nothing, [REPEAT_N] only
    [OverflowError], and only for a total of at least
    [10 * (2^1024 - 2^970)], [TARGET_TRIAL_FIXED_FEATURES] only
    [AxGenerationException]; so no member raises a [ValueError]. *)
Theorem dispatched_member_exceptions_on_typed_call previous_node next_node
    gs_gen_call_kwargs experiment (T : Z) (grs : list GeneratorRun)
    (self : NodeInputConstructors) (e : exn) :
  resolved_total next_node gs_gen_call_kwargs experiment (PyInt T) ->
  results_this_gen gs_gen_call_kwargs grs ->
  NodeInputConstructors_call self previous_node next_node gs_gen_call_kwargs experiment
  = Raise e ->
  match self with
  | ALL_N => False
  | REPEAT_N => e = OverflowError /\ 10 * (2 ^ 1024 - 2 ^ 970) <= T
  | REMAINING_N => False
  | TARGET_TRIAL_FIXED_FEATURES => exists msg, e = AxGenerationException msg
  end
  /\ (forall msg, e <> ValueError msg).
Proof.
  intros HT Hg He.
  assert (Hcases :
    match self with
    | ALL_N => False
    | REPEAT_N => e = OverflowError /\ 10 * (2 ^ 1024 - 2 ^ 970) <= T
    | REMAINING_N => False
    | TARGET_TRIAL_FIXED_FEATURES => exists msg, e = AxGenerationException msg
    end).
  { destruct self; change (NodeInputConstructors_call ?s) with (constructor_of s) in He;
      simpl in He.
    - discriminate.
    - rewrite (repeat_arm_n_total _ _ _ _ _ HT) in He.
      now apply repeat_ladder_raises in He.
    - rewrite (remaining_n_total _ _ _ _ _ _ HT Hg) in He. discriminate.
    - unfold set_target_trial in He.
      destruct (get_target_trial_index experiment); [discriminate |].
      injection He as <-. eauto. }
  split; [exact Hcases |].
  intros msg ->. destruct self; try contradiction.
  - destruct Hcases as [? _]. discriminate.
  - destruct Hcases as [? ?]. discriminate.
Qed.

(** X10: on a well-typed call (the resolved total is an integer and
    "grs_this_gen" is absent or a list of generator runs) the dispatch body
    raises a [ValueError] only when the value names nothing in the module,
    and the message is then the one built from that value. *)
Theorem value_error_only_for_unbound_value_on_typed_call previous_node next_node
    gs_gen_call_kwargs experiment (T : Z) (grs : list GeneratorRun)
    (self_value msg : string) :
  resolved_total next_node gs_gen_call_kwargs experiment (PyInt T) ->
  results_this_gen gs_gen_call_kwargs grs ->
  call_value self_value previous_node next_node gs_gen_call_kwargs experiment
  = Raise (ValueError msg) ->
  module_getattr self_value = None
  /\ msg = self_value
           +:+ " is not defined as a method in ``generation_node_input_constructors.py``. Please add the method to the file.".
Proof.
  intros HT Hg.
  unfold call_value, module_getattr.
  destruct (self_value =? "set_target_trial")%string.
  { unfold set_target_trial.
    destruct (get_target_trial_index experiment); discriminate. }
  destruct (self_value =? "consume_all_n")%string; [discriminate |].
  destruct (self_value =? "repeat_arm_n")%string.
  { intros H. exfalso. rewrite (repeat_arm_n_total _ _ _ _ _ HT) in H.
    apply repeat_ladder_raises in H as [H _]. discriminate. }
  destruct (self_value =? "remaining_n")%string.
  { intros H. exfalso.
    rewrite (remaining_n_total _ _ _ _ _ _ HT Hg) in H. discriminate. }
  destruct (bool_decide (self_value ∈ other_module_names) || interpreter_attr self_value);
    [discriminate |].
  intros [= <-]. auto.
Qed.

(** X11: as [@unique] demands, no two members of [NodeInputConstructors]
    share a value, and no two members of [InputConstructorPurpose]. *)
Theorem enum_values_are_unique :
  (forall a b : NodeInputConstructors, value a = value b -> a = b)
  /\ (forall a b : InputConstructorPurpose.t,
        InputConstructorPurpose.value a = InputConstructorPurpose.value b -> a = b).
Proof.
  split; intros [] []; simpl; intros H; try reflexivity; discriminate.
Qed.

(** X12: no count constructor ever returns [None]: not [_get_default_n],
    and none of [consume_all_n], [repeat_arm_n] and [remaining_n], whatever
    the keyword mapping and the properties of the experiment hold. *)
Theorem count_constructors_never_return_none previous_node next_node
    gs_gen_call_kwargs experiment :
  _get_default_n experiment next_node <> PyNone
  /\ consume_all_n previous_node next_node gs_gen_call_kwargs experiment <> Ok PyNone
  /\ repeat_arm_n previous_node next_node gs_gen_call_kwargs experiment <> Ok PyNone
  /\ remaining_n previous_node next_node gs_gen_call_kwargs experiment <> Ok PyNone.
Proof.
  split; [apply _get_default_n_not_none |]. split; [| split].
  - unfold consume_all_n.
    fold (total_n_of next_node gs_gen_call_kwargs experiment).
    intros [= H]. now apply total_n_of_not_none in H.
  - rewrite repeat_arm_n_by_total.
    destruct (total_n_of next_node gs_gen_call_kwargs experiment);
      try discriminate.
    intros H. apply repeat_ladder_int in H as [c H]. discriminate.
  - rewrite remaining_n_by_total.
    destruct (dict_get_default gs_gen_call_kwargs "grs_this_gen" (PyGrs []));
      destruct (total_n_of next_node gs_gen_call_kwargs experiment);
      discriminate.
Qed.

(** X13: when the call gives no count ("n" absent or [None]), passing the
    output of [_get_default_n] as "n" changes the outcome of none of the
    three count constructors. *)
Theorem explicit_default_is_no_n previous_node next_node
    (gs_gen_call_kwargs : gmap string PyVal) experiment :
  gs_gen_call_kwargs !! "n" = None \/ gs_gen_call_kwargs !! "n" = Some PyNone ->
  consume_all_n previous_node next_node
    (<["n" := _get_default_n experiment next_node]> gs_gen_call_kwargs) experiment
  = consume_all_n previous_node next_node gs_gen_call_kwargs experiment
  /\ repeat_arm_n previous_node next_node
       (<["n" := _get_default_n experiment next_node]> gs_gen_call_kwargs) experiment
     = repeat_arm_n previous_node next_node gs_gen_call_kwargs experiment
  /\ remaining_n previous_node next_node
       (<["n" := _get_default_n experiment next_node]> gs_gen_call_kwargs) experiment
     = remaining_n previous_node next_node gs_gen_call_kwargs experiment.
Proof.
  intros Hn.
  assert (Ht : total_n_of next_node
                 (<["n" := _get_default_n experiment next_node]> gs_gen_call_kwargs)
                 experiment
               = total_n_of next_node gs_gen_call_kwargs experiment).
  { unfold total_n_of at 2. rewrite (dict_get_none _ _ Hn). simpl.
    unfold total_n_of, dict_get. rewrite lookup_insert_eq. simpl.
    now rewrite (is_not_none_true _ (_get_default_n_not_none experiment next_node)). }
  split; [| split].
  - unfold consume_all_n.
    fold (total_n_of next_node
            (<["n" := _get_default_n experiment next_node]> gs_gen_call_kwargs)
            experiment).
    fold (total_n_of next_node gs_gen_call_kwargs experiment).
    now rewrite Ht.
  - now rewrite !repeat_arm_n_by_total, Ht.
  - rewrite !remaining_n_by_total, Ht. unfold dict_get_default.
    now rewrite lookup_insert_ne.
Qed.

(** X14: whenever [consume_all_n] returns an integer [T], [remaining_n]
    returns at most [max T 0]: exactly that when no run was generated yet,
    and [T] less the allocated arms while these do not exceed [T]. *)
Theorem remaining_n_within_consume_all_n previous_node next_node gs_gen_call_kwargs
    experiment (T : Z) (grs : list GeneratorRun) :
  consume_all_n previous_node next_node gs_gen_call_kwargs experiment = Ok (PyInt T) ->
  results_this_gen gs_gen_call_kwargs grs ->
  exists r,
    remaining_n previous_node next_node gs_gen_call_kwargs experiment = Ok (PyInt r)
    /\ r <= Z.max T 0
    /\ (grs = [] -> r = Z.max T 0)
    /\ (allocated grs <= T -> r + allocated grs = T).
Proof.
  intros HT Hg. unfold consume_all_n in HT.
  fold (total_n_of next_node gs_gen_call_kwargs experiment) in HT.
  injection HT as HT.
  rewrite remaining_n_by_total, (results_this_gen_get _ _ Hg), HT.
  pose proof (allocated_nonneg grs).
  eexists. split; [reflexivity |]. split; [lia |]. split; [| lia].
  intros ->. simpl. f_equal. lia.
Qed.

Lemma repeat_ladder_multiple_of_ten (k : Z) :
  1 <= k <= 2 ^ 53 -> repeat_ladder (10 * k) = Ok (PyInt k).
Proof.
  intros [Hlo Hhi].
  destruct (Z.eq_dec k 1) as [-> | H1]; [reflexivity |].
  destruct (Z.eq_dec k (2 ^ 53)) as [-> | H53]; [vm_compute; reflexivity |].
  rewrite repeat_ladder_large by lia.
  destruct (quotient_exponent_spec (10 * k) 10 ltac:(lia) ltac:(lia))
    as (He0 & Hel & Heh).
  set (e := quotient_exponent (10 * k) 10) in *.
  assert (He : e <= 52).
  { destruct (Z.le_gt_cases e 52) as [| Hbig]; [assumption |]. exfalso.
    assert (2 ^ 53 <= 2 ^ e) by (apply Z.pow_le_mono_r; lia). lia. }
  destruct (Z.lt_ge_cases e 52) as [Hs | Hl].
  - rewrite nearest_double_below_53_bits by (lia || fold e; lia).
    fold e. do 2 f_equal. unfold ceil. cbn [expo mant].
    destruct (Z.leb_spec 0 (e - 52)); [lia |].
    replace (- (e - 52)) with (52 - e) by lia.
    assert (Hkp : 0 < 2 ^ (52 - e)) by (apply Z.pow_pos_nonneg; lia).
    replace (10 * k * 2 ^ (52 - e)) with (k * 2 ^ (52 - e) * 10) by lia.
    rewrite round_half_even_exact by lia.
    replace (- (k * 2 ^ (52 - e))) with (- k * 2 ^ (52 - e)) by lia.
    rewrite Z.div_mul by lia. lia.
  - rewrite nearest_double_from_53_bits by (lia || fold e; lia).
    fold e. replace e with 52 by lia. cbv zeta.
    change (2 ^ (52 - 52)) with 1.
    replace (10 * k) with (k * (10 * 1)) by lia.
    rewrite round_half_even_exact by lia.
    assert (k * 1 < 2 ^ 1024).
    { assert (2 ^ 53 < 2 ^ 1024) by reflexivity. lia. }
    destruct (Z.leb_spec (2 ^ 1024) (k * 1)); [lia |].
    do 2 f_equal. unfold ceil. cbn [expo mant]. simpl. lia.
Qed.

(** X15: for a total that is ten times [k], with [k] from 1 to [2^53],
    [repeat_arm_n] returns exactly [k]: on multiples of ten the quotient is
    a double and nothing is lost. *)
Theorem repeat_arm_n_on_multiples_of_ten previous_node next_node gs_gen_call_kwargs
    experiment (k : Z) :
  resolved_total next_node gs_gen_call_kwargs experiment (PyInt (10 * k)) ->
  1 <= k <= 2 ^ 53 ->
  repeat_arm_n previous_node next_node gs_gen_call_kwargs experiment = Ok (PyInt k).
Proof.
  intros HT Hk. rewrite (repeat_arm_n_total _ _ _ _ _ HT).
  now apply repeat_ladder_multiple_of_ten.
Qed.

(** X16: when the call gives no count and the experiment has no property
    for the total of concurrent arms, [repeat_arm_n] returns [DEFAULT_N],
    for every [DEFAULT_N] from 1 to [2^53]. *)
Theorem repeat_arm_n_default_is_default_n previous_node next_node
    (gs_gen_call_kwargs : gmap string PyVal) experiment :
  gs_gen_call_kwargs !! "n" = None \/ gs_gen_call_kwargs !! "n" = Some PyNone ->
  _properties experiment !! EXPERIMENT_TOTAL_CONCURRENT_ARMS = None
  \/ _properties experiment !! EXPERIMENT_TOTAL_CONCURRENT_ARMS = Some PyNone ->
  1 <= DEFAULT_N (generation_strategy next_node) <= 2 ^ 53 ->
  repeat_arm_n previous_node next_node gs_gen_call_kwargs experiment
  = Ok (PyInt (DEFAULT_N (generation_strategy next_node))).
Proof.
  intros Hn Hp Hd.
  rewrite repeat_arm_n_by_total. unfold total_n_of, _get_default_n.
  rewrite (dict_get_none _ _ Hn), (dict_get_none _ _ Hp). simpl.
  rewrite Z.mul_comm. now apply repeat_ladder_multiple_of_ten.
Qed.

End InputConstructors.

(** ** The theorems at concrete calls *)

Local Abbreviation total_arms_key := "total_concurrent_arms"%string.

Local Abbreviation sobol :=
  {| node_name := "sobol"; generation_strategy := {| DEFAULT_N := 1 |} |}.

Local Abbreviation botorch :=
  {| node_name := "botorch"; generation_strategy := {| DEFAULT_N := 3 |} |}.

Local Abbreviation fresh_experiment :=
  (@Build_Experiment unit ∅ ∅).

Local Abbreviation experiment_with_arms p :=
  (@Build_Experiment unit {[ total_arms_key := PyInt p ]} ∅).

Local Abbreviation run_of_3 :=
  {| arms := [ {| arm_name := "0_0" |}; {| arm_name := "0_1" |}; {| arm_name := "0_2" |} ] |}.

Local Abbreviation run_of_1 := {| arms := [ {| arm_name := "0_3" |} ] |}.

(** [remaining_n] with ten arms requested and four already generated. *)
Lemma remaining_n_max_witness :
  resolved_total total_arms_key sobol
    {[ "n" := PyInt 10; "grs_this_gen" := PyGrs [run_of_3; run_of_1] ]}
    fresh_experiment (PyInt 10)
  /\ results_this_gen
       {[ "n" := PyInt 10; "grs_this_gen" := PyGrs [run_of_3; run_of_1] ]}
       [run_of_3; run_of_1]
  /\ exists r,
       remaining_n total_arms_key None sobol
         {[ "n" := PyInt 10; "grs_this_gen" := PyGrs [run_of_3; run_of_1] ]}
         fresh_experiment = Ok (PyInt r)
       /\ r = Z.max (10 - allocated [run_of_3; run_of_1]) 0
       /\ 0 <= r
       /\ (10 <= allocated [run_of_3; run_of_1] -> r = 0).
Proof.
  assert (HT : resolved_total total_arms_key sobol
                 {[ "n" := PyInt 10; "grs_this_gen" := PyGrs [run_of_3; run_of_1] ]}
                 fresh_experiment (PyInt 10)).
  { apply total_explicit; [reflexivity | discriminate]. }
  assert (Hg : results_this_gen
                 {[ "n" := PyInt 10; "grs_this_gen" := PyGrs [run_of_3; run_of_1] ]}
                 [run_of_3; run_of_1]).
  { apply results_present. reflexivity. }
  split; [exact HT |]. split; [exact Hg |].
  exact (remaining_n_max total_arms_key None sobol _ fresh_experiment 10 _ HT Hg).
Defined.

(** Ten requested after four arms leaves six; after twelve arms, none. *)
Example remaining_n_ten_after_four :
  remaining_n total_arms_key None sobol
    {[ "n" := PyInt 10; "grs_this_gen" := PyGrs [run_of_3; run_of_1] ]}
    fresh_experiment = Ok (PyInt 6).
Proof. reflexivity. Qed.

Example remaining_n_ten_after_twelve :
  remaining_n total_arms_key None sobol
    {[ "n" := PyInt 10;
       "grs_this_gen" := PyGrs [run_of_3; run_of_3; run_of_3; run_of_3] ]}
    fresh_experiment = Ok (PyInt 0).
Proof. reflexivity. Qed.

(** Twenty requested after runs of five and three arms: twelve remain, two
    repeats, twenty in all. *)
Example twenty_after_five_and_three :
  let five := {| arms := repeat {| arm_name := "a" |} 5 |} in
  let kwargs : gmap string PyVal :=
    {[ "n" := PyInt 20; "grs_this_gen" := PyGrs [five; run_of_3] ]} in
  remaining_n total_arms_key None sobol kwargs fresh_experiment = Ok (PyInt 12)
  /\ repeat_arm_n total_arms_key None sobol kwargs fresh_experiment = Ok (PyInt 2)
  /\ consume_all_n total_arms_key None sobol kwargs fresh_experiment = Ok (PyInt 20).
Proof. repeat split; vm_compute; reflexivity. Qed.

(** [set_target_trial] with no target trial, and with target trial 3. *)
Lemma set_target_trial_raises_iff_no_target_witness :
  (exists before between after,
     set_target_trial (fun _ : @Experiment unit => None) node_name
       "[RUNNING, COMPLETED]" (fun _ => "{}") None sobol ∅ fresh_experiment
     = Raise (AxGenerationException
                (before +:+ "sobol" +:+ between +:+ "{}" +:+ after)))
  /\ set_target_trial (fun _ : @Experiment unit => Some 3) node_name
       "[RUNNING, COMPLETED]" (fun _ => "{}") None sobol ∅ fresh_experiment
     = Ok (PyObs {| parameters := ∅; trial_index := Some 3 |}).
Proof.
  split.
  - apply (proj1 (proj2 (set_target_trial_raises_iff_no_target
                           (fun _ : @Experiment unit => None) node_name
                           "[RUNNING, COMPLETED]" (fun _ => "{}")
                           None sobol ∅ fresh_experiment))).
    reflexivity.
  - apply (proj1 (proj2 (proj2 (set_target_trial_raises_iff_no_target
                                  (fun _ : @Experiment unit => Some 3) node_name
                                  "[RUNNING, COMPLETED]" (fun _ => "{}")
                                  None sobol ∅ fresh_experiment)))).
    reflexivity.
Defined.

(** C4 as stated fails: an experiment whose property is 0 makes
    [_get_default_n] return 0, below one and below [DEFAULT_N = 1]. *)
Lemma default_n_zero_property_counterexample :
  _get_default_n total_arms_key (experiment_with_arms 0) sobol = PyInt 0
  /\ ~ (exists v, _get_default_n total_arms_key (experiment_with_arms 0) sobol = PyInt v
                  /\ 1 <= v /\ DEFAULT_N (generation_strategy sobol) <= v).
Proof.
  split; [reflexivity |].
  intros (v & Hv & H1 & _). vm_compute in Hv. injection Hv as <-. lia.
Qed.

(** [_get_default_n] without the property, and with the property at 0. *)
Lemma default_n_lower_bound_without_property_witness :
  1 <= DEFAULT_N (generation_strategy botorch)
  /\ (exists v, _get_default_n total_arms_key fresh_experiment botorch = PyInt v
                /\ 1 <= v /\ DEFAULT_N (generation_strategy botorch) <= v)
  /\ _get_default_n total_arms_key (experiment_with_arms 0) botorch = PyInt 0.
Proof.
  assert (HD : 1 <= DEFAULT_N (generation_strategy botorch)) by (simpl; lia).
  split; [exact HD |]. split.
  - apply (proj1 (default_n_lower_bound_without_property
                    total_arms_key fresh_experiment botorch HD)).
    left. reflexivity.
  - apply (proj2 (default_n_lower_bound_without_property
                    total_arms_key (experiment_with_arms 0) botorch HD)).
    reflexivity.
Defined.

(** [consume_all_n] with twenty requested, and with nothing requested. *)
Lemma consume_all_n_explicit_or_default_witness :
  consume_all_n total_arms_key None sobol {[ "n" := PyInt 20 ]} fresh_experiment
  = Ok (PyInt 20)
  /\ consume_all_n total_arms_key None sobol {[ "n" := PyNone ]} fresh_experiment
     = Ok (_get_default_n total_arms_key fresh_experiment sobol).
Proof.
  split.
  - apply (proj1 (consume_all_n_explicit_or_default
                    total_arms_key None sobol {[ "n" := PyInt 20 ]} fresh_experiment)).
    + reflexivity.
    + discriminate.
  - apply (proj2 (consume_all_n_explicit_or_default
                    total_arms_key None sobol {[ "n" := PyNone ]} fresh_experiment)).
    right. reflexivity.
Defined.

(** [_get_default_n] with the property at 7, and without it. *)
Lemma default_n_property_or_ten_times_default_witness :
  _get_default_n total_arms_key (experiment_with_arms 7) botorch = PyInt 7
  /\ _get_default_n total_arms_key fresh_experiment botorch
     = PyInt (10 * DEFAULT_N (generation_strategy botorch)).
Proof.
  split.
  - apply (proj1 (default_n_property_or_ten_times_default
                    total_arms_key (experiment_with_arms 7) botorch)).
    + reflexivity.
    + discriminate.
  - apply (proj2 (default_n_property_or_ten_times_default
                    total_arms_key fresh_experiment botorch)).
    left. reflexivity.
Defined.

(** C7 as stated fails: with a list under "n", [ALL_N] returns that
    list, which is no integer. *)
Lemma dispatch_all_n_returns_list_counterexample :
  NodeInputConstructors_call total_arms_key (fun _ : @Experiment unit => None)
    node_name "[RUNNING, COMPLETED]" (fun _ => "{}") (fun _ => false)
    ALL_N None sobol {[ "n" := PyGrs [] ]} fresh_experiment
  = Ok (PyGrs [])
  /\ ~ has_purpose_type (purpose_of ALL_N) (PyGrs []).
Proof.
  split; [reflexivity |]. intros [c Hc]. discriminate.
Qed.

(** Dispatch of [ALL_N] and of [REMAINING_N] with twenty requested, and of
    a value that names nothing in the module. *)
Lemma dispatch_calls_named_constructor_on_typed_call_witness :
  (exists T, resolved_total total_arms_key sobol {[ "n" := PyInt 20 ]}
               fresh_experiment (PyInt T))
  /\ has_purpose_type (purpose_of ALL_N) (PyInt 20)
  /\ has_purpose_type (purpose_of REMAINING_N) (PyInt 20)
  /\ call_value total_arms_key (fun _ : @Experiment unit => None) node_name
       "[RUNNING, COMPLETED]" (fun _ => "{}") (fun _ => false)
       "fabricated_constructor" None sobol {[ "n" := PyInt 20 ]} fresh_experiment
     = Raise (ValueError
                ("fabricated_constructor"
                 +:+ " is not defined as a method in ``generation_node_input_constructors.py``. Please add the method to the file.")).
Proof.
  pose proof (dispatch_calls_named_constructor_on_typed_call
                total_arms_key (fun _ : @Experiment unit => None) node_name
                "[RUNNING, COMPLETED]" (fun _ => "{}") (fun _ => false)
                None sobol {[ "n" := PyInt 20 ]} fresh_experiment)
    as (_ & Hresolved & Htype & Hmissing).
  assert (HT : exists T, resolved_total total_arms_key sobol {[ "n" := PyInt 20 ]}
                           fresh_experiment (PyInt T)).
  { apply Hresolved.
    - change (int_or_none (Some (PyInt 20))). apply int_or_none_int.
    - change (int_or_none (@None PyVal)). apply int_or_none_absent. }
  split; [exact HT |]. split; [| split].
  - apply (Htype ALL_N (PyInt 20)); [intros _; exact HT | reflexivity].
  - apply (Htype REMAINING_N (PyInt 20)); [intros _; exact HT | reflexivity].
  - apply Hmissing. reflexivity.
Defined.

(** [repeat_arm_n] with ten and with eleven requested. *)
Lemma repeat_arm_n_monotone_witness :
  exists c1 c2, PyInt 1 = PyInt c1 /\ PyInt 2 = PyInt c2 /\ c1 <= c2.
Proof.
  apply (proj1 (repeat_arm_n_monotone total_arms_key)
           None sobol {[ "n" := PyInt 10 ]} fresh_experiment
           None botorch {[ "n" := PyInt 11 ]} (experiment_with_arms 7)
           10 11 (PyInt 1) (PyInt 2)).
  - apply total_explicit; [reflexivity | discriminate].
  - apply total_explicit; [reflexivity | discriminate].
  - lia.
  - reflexivity.
  - vm_compute. reflexivity.
Defined.

(** Twenty requested, on two experiments and two nodes. *)
Lemma explicit_n_ignores_experiment_and_nodes_witness :
  consume_all_n total_arms_key None sobol {[ "n" := PyInt 20 ]} fresh_experiment
  = consume_all_n total_arms_key (Some sobol) botorch {[ "n" := PyInt 20 ]}
      (experiment_with_arms 7)
  /\ repeat_arm_n total_arms_key None sobol {[ "n" := PyInt 20 ]} fresh_experiment
     = repeat_arm_n total_arms_key (Some sobol) botorch {[ "n" := PyInt 20 ]}
         (experiment_with_arms 7)
  /\ remaining_n total_arms_key None sobol {[ "n" := PyInt 20 ]} fresh_experiment
     = remaining_n total_arms_key (Some sobol) botorch {[ "n" := PyInt 20 ]}
         (experiment_with_arms 7).
Proof.
  apply (explicit_n_ignores_experiment_and_nodes total_arms_key
           {[ "n" := PyInt 20 ]} (PyInt 20)).
  - reflexivity.
  - discriminate.
Defined.

(** [repeat_arm_n] with the property of the experiment at 25 and nothing
    requested. *)
Lemma repeat_arm_n_between_zero_and_total_witness :
  resolved_total total_arms_key sobol ∅ (experiment_with_arms 25) (PyInt 25)
  /\ exists c, PyInt 3 = PyInt c /\ 0 <= c /\ (0 <= 25 -> c <= 25).
Proof.
  assert (HT : resolved_total total_arms_key sobol ∅ (experiment_with_arms 25) (PyInt 25)).
  { change (resolved_total total_arms_key sobol ∅ (experiment_with_arms 25)
              (_get_default_n total_arms_key (experiment_with_arms 25) sobol)).
    apply total_default. left. reflexivity. }
  split; [exact HT |].
  apply (proj1 (repeat_arm_n_between_zero_and_total
                  total_arms_key None sobol ∅ (experiment_with_arms 25) 25 HT)).
  vm_compute. reflexivity.
Defined.

(** ** The further properties at concrete calls *)

(** A call with a list of pending points under another key. *)
Lemma other_keys_are_ignored_witness :
  consume_all_n total_arms_key None sobol
    (<["pending_observations" := PyNone]> {[ "n" := PyInt 20 ]}) fresh_experiment
  = consume_all_n total_arms_key None sobol {[ "n" := PyInt 20 ]} fresh_experiment
  /\ repeat_arm_n total_arms_key None sobol
       (<["pending_observations" := PyNone]> {[ "n" := PyInt 20 ]}) fresh_experiment
     = repeat_arm_n total_arms_key None sobol {[ "n" := PyInt 20 ]} fresh_experiment
  /\ remaining_n total_arms_key None sobol
       (<["pending_observations" := PyNone]> {[ "n" := PyInt 20 ]}) fresh_experiment
     = remaining_n total_arms_key None sobol {[ "n" := PyInt 20 ]} fresh_experiment.
Proof.
  apply (other_keys_are_ignored total_arms_key None sobol {[ "n" := PyInt 20 ]}
           fresh_experiment "pending_observations" PyNone); discriminate.
Defined.

(** [repeat_arm_n] with [10 * 2^1024] under "n". *)
Lemma repeat_arm_n_raises_only_on_overflow_witness :
  repeat_arm_n total_arms_key None sobol {[ "n" := PyInt (10 * 2 ^ 1024) ]}
    fresh_experiment
  = Raise OverflowError.
Proof.
  assert (HT : resolved_total total_arms_key sobol
                 {[ "n" := PyInt (10 * 2 ^ 1024) ]} fresh_experiment
                 (PyInt (10 * 2 ^ 1024)))
    by (apply total_explicit; [reflexivity | discriminate]).
  apply (proj1 (repeat_arm_n_raises_only_on_overflow total_arms_key None sobol
                  {[ "n" := PyInt (10 * 2 ^ 1024) ]} fresh_experiment
                  (10 * 2 ^ 1024) HT)).
  vm_compute. discriminate.
Defined.

(** Ten requested, three arms generated, then one more run of one arm. *)
Lemma remaining_n_after_one_more_run_witness :
  remaining_n total_arms_key None sobol
    (<["grs_this_gen" := PyGrs ([run_of_3] ++ [run_of_1])]>
       {[ "n" := PyInt 10; "grs_this_gen" := PyGrs [run_of_3] ]})
    fresh_experiment
  = Ok (PyInt (Z.max (7 - Z.of_nat (length (arms run_of_1))) 0)).
Proof.
  apply (proj1 (remaining_n_after_one_more_run total_arms_key None sobol
                  {[ "n" := PyInt 10; "grs_this_gen" := PyGrs [run_of_3] ]}
                  fresh_experiment [run_of_3] run_of_1 7
                  ltac:(apply results_present; reflexivity)
                  ltac:(reflexivity))).
Defined.

(** The two runs in the other order. *)
Lemma remaining_n_any_order_of_runs_witness :
  remaining_n total_arms_key None sobol
    (<["grs_this_gen" := PyGrs [run_of_1; run_of_3]]>
       {[ "n" := PyInt 10; "grs_this_gen" := PyGrs [run_of_3; run_of_1] ]})
    fresh_experiment
  = remaining_n total_arms_key None sobol
      {[ "n" := PyInt 10; "grs_this_gen" := PyGrs [run_of_3; run_of_1] ]}
      fresh_experiment.
Proof.
  apply (remaining_n_any_order_of_runs total_arms_key None sobol
           {[ "n" := PyInt 10; "grs_this_gen" := PyGrs [run_of_3; run_of_1] ]}
           fresh_experiment [run_of_3; run_of_1] [run_of_1; run_of_3]).
  - apply results_present. reflexivity.
  - apply Permutation_swap.
Defined.

(** Twenty-five requested gives three repeats. *)
Lemma repeat_arm_n_band_witness :
  (3 = 0 <-> 25 < 6) /\ (3 = 1 <-> 6 <= 25 <= 10) /\ (2 <= 3 <-> 10 < 25).
Proof.
  apply (repeat_arm_n_band total_arms_key None sobol {[ "n" := PyInt 25 ]}
           fresh_experiment 25 3).
  - apply total_explicit; [reflexivity | discriminate].
  - vm_compute. reflexivity.
Defined.

(** The total [10 * 2^50 + 1], where the count is one below the ceiling. *)
Lemma repeat_arm_n_relative_error_witness :
  (10 * 2 ^ 50 + 1) * (2 ^ 53 - 1) <= 10 * 2 ^ 50 * 2 ^ 53
  /\ 10 * (2 ^ 50 - 1) * 2 ^ 53 < (10 * 2 ^ 50 + 1) * (2 ^ 53 + 1).
Proof.
  apply (repeat_arm_n_relative_error total_arms_key None sobol
           {[ "n" := PyInt (10 * 2 ^ 50 + 1) ]} fresh_experiment
           (10 * 2 ^ 50 + 1) (2 ^ 50)).
  - apply total_explicit; [reflexivity | discriminate].
  - vm_compute. reflexivity.
  - vm_compute. reflexivity.
Defined.

(** [REPEAT_N] dispatched with [10 * 2^1024] requested. *)
Lemma dispatched_member_exceptions_on_typed_call_witness :
  (OverflowError = OverflowError /\ 10 * (2 ^ 1024 - 2 ^ 970) <= 10 * 2 ^ 1024)
  /\ (forall msg, OverflowError <> ValueError msg).
Proof.
  apply (dispatched_member_exceptions_on_typed_call total_arms_key
           (fun _ : @Experiment unit => None) node_name "[RUNNING, COMPLETED]"
           (fun _ => "{}") (fun _ => false)
           None sobol {[ "n" := PyInt (10 * 2 ^ 1024) ]} fresh_experiment
           (10 * 2 ^ 1024) [] REPEAT_N OverflowError).
  - apply total_explicit; [reflexivity | discriminate].
  - apply results_absent. reflexivity.
  - vm_compute. reflexivity.
Defined.

(** Dispatch on a value that names nothing in the module, with twenty
    requested. *)
Lemma value_error_only_for_unbound_value_on_typed_call_witness :
  module_getattr total_arms_key (fun _ : @Experiment unit => None) node_name
    "[RUNNING, COMPLETED]" (fun _ => "{}") (fun _ => false) "sobol_n" = None
  /\ "sobol_n is not defined as a method in ``generation_node_input_constructors.py``. Please add the method to the file."%string
     = "sobol_n"
       +:+ " is not defined as a method in ``generation_node_input_constructors.py``. Please add the method to the file.".
Proof.
  apply (value_error_only_for_unbound_value_on_typed_call total_arms_key
           (fun _ : @Experiment unit => None) node_name "[RUNNING, COMPLETED]"
           (fun _ => "{}") (fun _ => false)
           None sobol {[ "n" := PyInt 20 ]} fresh_experiment 20 [] "sobol_n").
  - apply total_explicit; [reflexivity | discriminate].
  - apply results_absent. reflexivity.
  - reflexivity.
Defined.

(** A call without "n" on an experiment whose property is 7. *)
Lemma explicit_default_is_no_n_witness :
  consume_all_n total_arms_key None sobol
    (<["n" := _get_default_n total_arms_key (experiment_with_arms 7) sobol]> ∅)
    (experiment_with_arms 7)
  = consume_all_n total_arms_key None sobol ∅ (experiment_with_arms 7)
  /\ repeat_arm_n total_arms_key None sobol
       (<["n" := _get_default_n total_arms_key (experiment_with_arms 7) sobol]> ∅)
       (experiment_with_arms 7)
     = repeat_arm_n total_arms_key None sobol ∅ (experiment_with_arms 7)
  /\ remaining_n total_arms_key None sobol
       (<["n" := _get_default_n total_arms_key (experiment_with_arms 7) sobol]> ∅)
       (experiment_with_arms 7)
     = remaining_n total_arms_key None sobol ∅ (experiment_with_arms 7).
Proof.
  apply (explicit_default_is_no_n total_arms_key None sobol ∅ (experiment_with_arms 7)).
  left. reflexivity.
Defined.

(** Ten requested after one run of three arms. *)
Lemma remaining_n_within_consume_all_n_witness :
  exists r,
    remaining_n total_arms_key None sobol
      {[ "n" := PyInt 10; "grs_this_gen" := PyGrs [run_of_3] ]} fresh_experiment
    = Ok (PyInt r)
    /\ r <= Z.max 10 0
    /\ ([run_of_3] = [] -> r = Z.max 10 0)
    /\ (allocated [run_of_3] <= 10 -> r + allocated [run_of_3] = 10).
Proof.
  apply (remaining_n_within_consume_all_n total_arms_key None sobol
           {[ "n" := PyInt 10; "grs_this_gen" := PyGrs [run_of_3] ]}
           fresh_experiment 10 [run_of_3]).
  - reflexivity.
  - apply results_present. reflexivity.
Defined.

(** Three hundred requested. *)
Lemma repeat_arm_n_on_multiples_of_ten_witness :
  repeat_arm_n total_arms_key None sobol {[ "n" := PyInt (10 * 30) ]} fresh_experiment
  = Ok (PyInt 30).
Proof.
  apply (repeat_arm_n_on_multiples_of_ten total_arms_key None sobol
           {[ "n" := PyInt (10 * 30) ]} fresh_experiment 30).
  - apply total_explicit; [reflexivity | discriminate].
  - split; [lia | vm_compute; discriminate].
Defined.

(** No count, no property, [DEFAULT_N = 3]. *)
Lemma repeat_arm_n_default_is_default_n_witness :
  repeat_arm_n total_arms_key None botorch ∅ fresh_experiment
  = Ok (PyInt (DEFAULT_N (generation_strategy botorch))).
Proof.
  apply (repeat_arm_n_default_is_default_n total_arms_key None botorch ∅
           fresh_experiment).
  - left. reflexivity.
  - left. reflexivity.
  - split; [simpl; lia | vm_compute; discriminate].
Defined.
